(** * Click-by-selector skill and telemetry collector: a shallow embedding

    The development follows two source files:
    - [hercules/core/skills/click_using_selector.py]: [click], [do_click],
      [is_element_present], [perform_javascript_click] and the in-page
      script [findElementInShadowDOMAndIframes] they evaluate;
    - [testzeus_hercules/telemetry.py]: [add_event] and the event collector.

    Python exceptions are an explicit result type, the page is explicit
    state, and the calls into Playwright and the session manager are the
    fields of an interface record. *)

From Stdlib Require Import List String Ascii ZArith Bool Lia.
From stdpp Require Import base gmap strings.
Import ListNotations.
Open Scope string_scope.

(* ===================================================================== *)
(** ** Text helpers *)

Module Text.

(** JavaScript's [toLowerCase] on the ASCII letters of a tag name. *)
Definition lower_ascii (c : ascii) : ascii :=
  let n := nat_of_ascii c in
  if (Nat.leb 65 n && Nat.leb n 90)%bool then ascii_of_nat (n + 32) else c.

Fixpoint toLowerCase (s : string) : string :=
  match s with
  | EmptyString => EmptyString
  | String c r => String (lower_ascii c) (toLowerCase r)
  end.

(** Python's [needle in hay] on strings. *)
Fixpoint starts_with (needle hay : string) : bool :=
  match needle, hay with
  | EmptyString, _ => true
  | String a n', String b h' => (Ascii.eqb a b && starts_with n' h')%bool
  | String _ _, EmptyString => false
  end.

Fixpoint str_in (needle hay : string) : bool :=
  (starts_with needle hay ||
   match hay with
   | EmptyString => false
   | String _ h' => str_in needle h'
   end)%bool.

(** Python's [str()] inside an f-string: [None] prints as the word None. *)
Definition fstr (v : option string) : string :=
  match v with
  | Some s => s
  | None => "None"
  end.

(** Python truthiness of an optional string: [None] and the empty string are
    both false. *)
Definition truthy (v : option string) : bool :=
  match v with
  | Some EmptyString => false
  | Some (String _ _) => true
  | None => false
  end.

End Text.

(* ===================================================================== *)
(** ** The page's rendering tree, as the in-page script sees it *)

Module Dom.

(** What [el.contentDocument || el.contentWindow.document] gives on an
    [iframe] element: the document of a same-origin frame, a security error
    on a cross-origin frame (whose content exists all the same and is kept
    here), or nothing. *)
Inductive FrameContent (R : Type) : Type :=
  | SameOrigin (doc : R)
  | CrossOrigin (doc : R)
  | NoDocument.
Arguments SameOrigin {R} doc.
Arguments CrossOrigin {R} doc.
Arguments NoDocument {R}.

#[local] Set Warnings "-register-all".

(** An element: its [tagName], attributes, text, light-tree children, the
    shadow root it exposes as [el.shadowRoot], and its frame content. A
    search root (document or shadow root) is the list of its top elements. *)
Inductive Node : Type :=
  mkNode (tagName : string)
         (attributes : list (string * string))
         (text : string)
         (children : list Node)
         (shadowRoot : option (list Node))
         (frame : FrameContent (list Node)).

Definition tagName (n : Node) : string :=
  match n with mkNode t _ _ _ _ _ => t end.
Definition attributes (n : Node) : list (string * string) :=
  match n with mkNode _ a _ _ _ _ => a end.
Definition text (n : Node) : string :=
  match n with mkNode _ _ x _ _ _ => x end.
Definition children (n : Node) : list Node :=
  match n with mkNode _ _ _ c _ _ => c end.
Definition shadowRoot (n : Node) : option (list Node) :=
  match n with mkNode _ _ _ _ s _ => s end.
Definition frame (n : Node) : FrameContent (list Node) :=
  match n with mkNode _ _ _ _ _ f => f end.

Definition Root : Type := list Node.

(** Errors a script can throw. *)
Inductive JsError : Type :=
  | SyntaxError     (* querySelector on a string that is not a CSS selector *)
  | SecurityError   (* reaching into a cross-origin frame *)
  | TypeError.      (* property access on null *)

Inductive JsRes (A : Type) : Type :=
  | Val (a : A)
  | Throw (e : JsError).
Arguments Val {A} a.
Arguments Throw {A} e.

(** [element.getAttribute(name)]: [null] when the attribute is absent. *)
Fixpoint lookup_attr (name : string) (attrs : list (string * string))
  : option string :=
  match attrs with
  | [] => None
  | (k, v) :: rest => if String.eqb k name then Some v else lookup_attr name rest
  end.

Definition getAttribute (el : Node) (name : string) : option string :=
  lookup_attr name (attributes el).

(** [element.name = value] on a reflected attribute. *)
Fixpoint assign_attr (name value : string) (attrs : list (string * string))
  : list (string * string) :=
  match attrs with
  | [] => [(name, value)]
  | (k, v) :: rest =>
      if String.eqb k name then (k, value) :: rest
      else (k, v) :: assign_attr name value rest
  end.

Definition setAttribute (el : Node) (name value : string) : Node :=
  match el with
  | mkNode t a x c s f => mkNode t (assign_attr name value a) x c s f
  end.

(** [parent.querySelectorAll('*')]: every element of the light tree under
    the root, in document order. Shadow trees and frame documents are other
    scopes and are not entered. *)
Fixpoint self_and_descendants (n : Node) : list Node :=
  match n with
  | mkNode _ _ _ kids _ _ => n :: flat_map self_and_descendants kids
  end.

Definition querySelectorAll_star (parent : Root) : list Node :=
  flat_map self_and_descendants parent.

(** [parent.querySelector(selector)] for a selector the engine has parsed
    into the test [m]: the first match in document order. *)
Definition querySelector (m : Node -> bool) (parent : Root) : option Node :=
  List.find m (querySelectorAll_star parent).

Definition is_iframe (el : Node) : bool :=
  String.eqb (Text.toLowerCase (tagName el)) "iframe".

(** [el.contentDocument || el.contentWindow.document]. *)
Definition contentDocument (el : Node) : JsRes (option Root) :=
  match frame el with
  | SameOrigin doc => Val (Some doc)
  | CrossOrigin _ => Throw SecurityError
  | NoDocument => Val None
  end.

(** [try { iframeDocument = ... } catch (e) { handler }] followed by the
    rest of the loop body, which receives [iframeDocument]. *)
Definition try_contentDocument {B : Type} (content : FrameContent Root)
  (handler : JsError -> B) (rest : option Root -> B) : B :=
  match content with
  | SameOrigin doc => rest (Some doc)
  | CrossOrigin _ => handler SecurityError
  | NoDocument => rest None
  end.

(** A [for (const el of elements)] loop whose body either returns from the
    enclosing function ([Val (Some _)]), falls through to the next element
    ([Val None]) or throws. *)
Definition for_of {A : Type} (body : A -> JsRes (option Node))
  : list A -> JsRes (option Node) :=
  fix go (els : list A) : JsRes (option Node) :=
    match els with
    | [] => Val None
    | el :: rest =>
        match body el with
        | Val (Some found) => Val (Some found)
        | Val None => go rest
        | Throw e => Throw e
        end
    end.

(** The loop of [findElementInShadowDOMAndIframes] restricted to one element
    and the elements below it, written by recursion on the tree: the body
    for [el] itself, then the same for its children in order. [search_in]
    is the whole helper on a nested root. *)
Fixpoint visit (m : Node -> bool) (el : Node) {struct el}
  : JsRes (option Node) :=
  match el with
  | mkNode _ _ _ kids shadow content =>
      let search_in (parent : Root) :=
        match querySelector m parent with
        | Some found => Val (Some found)
        | None => for_of (visit m) parent
        end in
      let in_shadow :=
        match shadow with
        | Some sr => search_in sr
        | None => Val None
        end in
      match in_shadow with
      | Val (Some found) => Val (Some found)
      | Throw e => Throw e
      | Val None =>
          let in_frame :=
            if is_iframe el then
              try_contentDocument content
                (fun _ => Val None)                       (* continue *)
                (fun iframeDocument =>
                   match iframeDocument with
                   | Some doc => search_in doc
                   | None => Val None
                   end)
            else Val None in
          match in_frame with
          | Val (Some found) => Val (Some found)
          | Throw e => Throw e
          | Val None => for_of (visit m) kids
          end
      end
  end.

(** The helper itself, for a parsed selector: query the root, then loop
    over every element of the root. *)
Definition findElementInShadowDOMAndIframes (m : Node -> bool) (parent : Root)
  : JsRes (option Node) :=
  match querySelector m parent with
  | Some element => Val (Some element)
  | None => for_of (visit m) parent
  end.

(** The body of the helper's loop for one element [el], as the script has
    it: the shadow root first, then the frame document. *)
Definition loop_body (m : Node -> bool) (el : Node) : JsRes (option Node) :=
  match
    match shadowRoot el with
    | Some sr => findElementInShadowDOMAndIframes m sr
    | None => Val None
    end
  with
  | Val (Some element) => Val (Some element)
  | Throw e => Throw e
  | Val None =>
      if is_iframe el then
        match contentDocument el with
        | Throw _ => Val None
        | Val None => Val None
        | Val (Some iframeDocument) =>
            findElementInShadowDOMAndIframes m iframeDocument
        end
      else Val None
  end.

(** The elements a script can reach from a root: those of its light tree,
    and those reachable from the shadow root an element of it exposes or
    from the document of a same-origin [iframe] in it. *)
Inductive Reaches : Root -> Node -> Prop :=
  | reach_light (parent : Root) (n : Node) :
      In n (querySelectorAll_star parent) -> Reaches parent n
  | reach_shadow (parent : Root) (host : Node) (sr : Root) (n : Node) :
      In host (querySelectorAll_star parent) ->
      shadowRoot host = Some sr ->
      Reaches sr n ->
      Reaches parent n
  | reach_frame (parent : Root) (el : Node) (doc : Root) (n : Node) :
      In el (querySelectorAll_star parent) ->
      is_iframe el = true ->
      frame el = SameOrigin doc ->
      Reaches doc n ->
      Reaches parent n.


(** What the loop body can return for [el]: an element reached through the
    shadow root of [el] or through its same-origin document. *)
Definition ReachedBelow (el found : Node) : Prop :=
  (exists sr, shadowRoot el = Some sr /\ Reaches sr found) \/
  (is_iframe el = true /\
   exists doc, frame el = SameOrigin doc /\ Reaches doc found).

(** Everything the loop body returns at or below [n] matches and is
    reached that way. *)
Definition SoundBelow (m : Node -> bool) (n : Node) : Prop :=
  forall el found,
    In el (self_and_descendants n) ->
    loop_body m el = Val (Some found) ->
    m found = true /\ ReachedBelow el found.

(** Induction on elements that reaches below every boundary: children,
    shadow root and frame document. *)
Section NodeInduction.

Variable P : Node -> Prop.

Hypothesis step :
  forall t a x kids shadow content,
    Forall P kids ->
    match shadow with Some sr => Forall P sr | None => True end ->
    match content with
    | SameOrigin doc => Forall P doc
    | CrossOrigin doc => Forall P doc
    | NoDocument => True
    end ->
    P (mkNode t a x kids shadow content).

Fixpoint node_induction (n : Node) : P n :=
  match n with
  | mkNode t a x kids shadow content =>
      let all :=
        fix all (l : list Node) : Forall P l :=
          match l with
          | [] => @List.Forall_nil Node P
          | y :: r => @List.Forall_cons Node P y r (node_induction y) (all r)
          end in
      step t a x kids shadow content
        (all kids)
        (match shadow as s
               return match s with Some sr => Forall P sr | None => True end
         with Some sr => all sr | None => I end)
        (match content as c
               return match c with
                      | SameOrigin doc => Forall P doc
                      | CrossOrigin doc => Forall P doc
                      | NoDocument => True
                      end
         with
         | SameOrigin doc => all doc
         | CrossOrigin doc => all doc
         | NoDocument => I
         end)
  end.

End NodeInduction.

End Dom.

(* ===================================================================== *)
(** ** Python results, the browser interface and the state it acts on *)

Module Py.

Inductive ExnClass : Type :=
  | ValueError
  | PlaywrightError.

(** An instance of [Exception], the exceptions [except Exception] catches:
    its class and [str(e)]. *)
Record PyExn : Type := mkExn { exn_class : ExnClass; exn_text : string }.

Inductive Res (A : Type) : Type :=
  | Ok (a : A)
  | Raise (e : PyExn).
Arguments Ok {A} a.
Arguments Raise {A} e.

(** The calls that leave the skill, in the order they are made. *)
Inductive Call : Type :=
  | AddEvent (detail : string)
  | GetCurrentPage
  | TakeScreenshots (label : string)
  | HighlightElement (selector : string)
  | Subscribe
  | Unsubscribe
  | Sleep (milliseconds : Z)
  | NotifyUser (message : option string)
  | QuerySelector
  | ScrollIntoViewIfNeeded
  | WaitForElementState
  | EvaluateTagName
  | GetElementOuterHtml
  | GetAttribute
  | EvaluateHandleParentNode
  | SelectOption
  | EvaluatePresenceScript
  | EvaluateClickScript.

End Py.

Import Dom Py.

(** The browser behind the skill. [Page] is the state of the open page and
    [document] its main document; an element handle is the element it
    stands for. The first group is what the in-page scripts rely on; the
    second is the Playwright API and the repository's
    [get_element_outer_html], each call returning or raising.

    [query_selector p root selector] is [page.query_selector] when [root] is
    the main document and [frame.query_selector] when it is the document of
    a frame of [frames p]; which elements it sees is left to the browser.
    Calls that read have the page as argument; [select_option] and
    [dispatch_click] also give the page they leave. [Page] is the state
    those calls depend on: where the view is scrolled to, which
    [scroll_into_view_if_needed] changes, is not part of it, and nothing
    below says that a run leaves the view where it was. [dispatch_click]
    stands for [element.click()] on an element that has the method. *)
Record Browser : Type := mkBrowser {
  Page : Type;
  document : Page -> Root;
  (* in-page *)
  css : string -> option (Node -> bool);          (* None: not a CSS selector *)
  dispatch_click : Page -> Node -> Page * Node;   (* page and element after the handlers ran *)
  parentElement : Page -> Node -> option Node;
  change_value : Page -> Node -> string -> Page;  (* parent.value = v; dispatch change *)
  (* Playwright *)
  frames : Page -> list Root;
  query_selector : Page -> Root -> string -> Res (option Node);
  scroll_into_view_if_needed : Page -> Node -> Res unit;
  wait_for_element_state : Page -> Node -> Res unit;
  evaluate_tagName : Page -> Node -> Res string;
  get_element_outer_html : Page -> Node -> string -> Res string;
  get_attribute : Page -> Node -> string -> Res (option string);
  evaluate_handle_parentNode : Page -> Node -> Res Node;
  select_option : Page -> Node -> option string -> Res Page
}.

Module Script.

Definition dq : string := String "034"%char EmptyString.
Definition newline : string := String "010"%char EmptyString.

(** The helper called on a selector string: the first [querySelector] throws
    when the string is not a selector. *)
Definition find_by_selector (b : Browser) (selector : string) (parent : Root)
  : JsRes (option Node) :=
  match css b selector with
  | None => Throw SyntaxError
  | Some m => findElementInShadowDOMAndIframes m parent
  end.

(** The script of [is_element_present]. *)
Definition presence_script (b : Browser) (selector : string) (p : Page b)
  : JsRes bool :=
  match find_by_selector b selector (document b p) with
  | Val (Some _) => Val true
  | Val None => Val false
  | Throw e => Throw e
  end.

Definition not_found_message (selector : string) : string :=
  "perform_javascript_click: Element with selector " ++ selector ++ " not found".

Definition executed_message (selector : string) : string :=
  "Executed JavaScript Click on element with selector: " ++ selector.

Definition menu_notice : string :=
  ". Very important: As a consequence, a menu has appeared where you may need to make further selection. Very important: Get all_fields DOM to complete the action.".

(** [element.value] of an option: its value attribute, else its text. *)
Definition option_value (element : Node) : string :=
  match getAttribute element "value" with
  | Some v => v
  | None => text element
  end.

Definition is_false_then_true (before after : option string) : bool :=
  match before, after with
  | Some x, Some y => (String.eqb x "false" && String.eqb y "true")%bool
  | _, _ => false
  end.

(** [if (element.tagName.toLowerCase() === "a") element.target = "_self"]. *)
Definition open_in_same_tab (element : Node) : Node :=
  if String.eqb (Text.toLowerCase (tagName element)) "a"
  then setAttribute element "target" "_self" else element.

(** The script of [perform_javascript_click]: its result and the page it
    leaves. *)
Definition click_script (b : Browser) (selector : string) (p : Page b)
  : JsRes string * Page b :=
  match find_by_selector b selector (document b p) with
  | Throw e => (Throw e, p)
  | Val None => (Val (not_found_message selector), p)
  | Val (Some element) =>
      if String.eqb (Text.toLowerCase (tagName element)) "option" then
        let value := text element in
        match parentElement b p element with
        | None => (Throw TypeError, p)
        | Some parent =>
            (Val ("Select menu option: " ++ value ++ " selected"),
             change_value b p parent (option_value element))
        end
      else
        let element := open_in_same_tab element in
        let ariaExpandedBeforeClick := getAttribute element "aria-expanded" in
        let '(p', element') := dispatch_click b p element in
        let ariaExpandedAfterClick := getAttribute element' "aria-expanded" in
        if is_false_then_true ariaExpandedBeforeClick ariaExpandedAfterClick
        then (Val (executed_message selector ++ menu_notice), p')
        else (Val (executed_message selector), p')
  end.

End Script.

(* ===================================================================== *)
(** ** click_using_selector.py *)

Module Skill.

Import Script.

(** The state a call runs in: the page and the calls made so far. *)
Record World (P : Type) : Type := mkWorld { page : P; trace : list Call }.
Arguments mkWorld {P} _ _.
Arguments page {P} _.
Arguments trace {P} _.

Section WithBrowser.

Variable b : Browser.

(** An awaited computation: it returns or raises, and leaves a state. *)
Definition M (A : Type) : Type :=
  World (Page b) -> Res A * World (Page b).

Definition ret {A : Type} (a : A) : M A := fun w => (Ok a, w).

Definition raise {A : Type} (e : PyExn) : M A := fun w => (Raise e, w).

Definition bind {A B : Type} (c : M A) (k : A -> M B) : M B :=
  fun w =>
    match c w with
    | (Ok a, w') => k a w'
    | (Raise e, w') => (Raise e, w')
    end.

(** [try: body except Exception as e: handler(e)]. *)
Definition try_except {A : Type} (body : M A) (handler : PyExn -> M A) : M A :=
  fun w =>
    match body w with
    | (Ok a, w') => (Ok a, w')
    | (Raise e, w') => handler e w'
    end.

Notation "x <- c ;; k" := (bind c (fun x => k))
  (at level 100, c at next level, right associativity).
Notation "c ;;; k" := (bind c (fun _ => k))
  (at level 100, right associativity).

Definition call (c : Call) : M unit :=
  fun w => (Ok tt, mkWorld (page w) (trace w ++ [c])).

(** A Playwright call that reads the page. *)
Definition ask {A : Type} (c : Call) (f : Page b -> Res A) : M A :=
  fun w => (f (page w), mkWorld (page w) (trace w ++ [c])).

(** [page.evaluate(script, selector)]: an error thrown by the script is
    raised in Python. *)
Definition js_error_text (e : JsError) : string :=
  match e with
  | SyntaxError => "SyntaxError"
  | SecurityError => "SecurityError"
  | TypeError => "TypeError"
  end.

Definition of_js {A : Type} (r : JsRes A) : Res A :=
  match r with
  | Val a => Ok a
  | Throw e => Raise (mkExn PlaywrightError (js_error_text e))
  end.

Record Outcome : Type := mkOutcome {
  summary_message : option string;   (* None is Python's None *)
  detailed_message : string
}.

(** *** perform_javascript_click *)

Definition perform_javascript_click (selector : string) : M (option string) :=
  try_except
    (result <- (fun w =>
                  let '(r, p') := click_script b selector (page w) in
                  (of_js r, mkWorld p' (trace w ++ [EvaluateClickScript]))) ;;
     ret (Some result))
    (fun e => ret None).

(** *** is_element_present *)

Definition is_element_present (selector : string) : M bool :=
  element <- ask QuerySelector
               (fun p => query_selector b p (document b p) selector) ;;
  match element with
  | Some _ => ret true
  | None =>
      ask EvaluatePresenceScript (fun p => of_js (presence_script b selector p))
  end.

(** *** do_click *)

Fixpoint query_frames (selector : string) (fs : list Root)
  : M (option Node) :=
  match fs with
  | [] => ret None
  | frame :: rest =>
      element <- ask QuerySelector (fun p => query_selector b p frame selector) ;;
      match element with
      | Some _ => ret element
      | None => query_frames selector rest
      end
  end.

Definition find_element_within_iframes (selector : string) : M (option Node) :=
  element <- ask QuerySelector
               (fun p => query_selector b p (document b p) selector) ;;
  match element with
  | Some _ => ret element
  | None => fun w => query_frames selector (frames b (page w)) w
  end.

Definition unable_message (selector : string) : string :=
  "Unable to click element with selector: " ++ dq ++ selector ++ dq ++
  " since the selector is invalid. Proceed by retrieving DOM again.".

Definition not_found_text (selector : string) : string :=
  "Element with selector: " ++ dq ++ selector ++ dq ++ " not found".

Definition selected_message (element_value : option string) : string :=
  "Select menu option " ++ dq ++ Text.fstr element_value ++ dq ++ " selected".

Definition failure (selector : string) (e : PyExn) : Outcome :=
  mkOutcome (Some (unable_message selector))
            (unable_message selector ++ ". Error: " ++ exn_text e).

(** The body of the [try] block. *)
Definition do_click_body (selector : string) : M Outcome :=
  element <- find_element_within_iframes selector ;;
  match element with
  | None => raise (mkExn ValueError (not_found_text selector))
  | Some element =>
      try_except (ask ScrollIntoViewIfNeeded
                    (fun p => scroll_into_view_if_needed b p element))
                 (fun _ => ret tt) ;;;
      try_except (ask WaitForElementState
                    (fun p => wait_for_element_state b p element))
                 (fun _ => ret tt) ;;;
      element_tag_name <- ask EvaluateTagName
                            (fun p => evaluate_tagName b p element) ;;
      element_outer_html <-
        ask GetElementOuterHtml
          (fun p => get_element_outer_html b p element element_tag_name) ;;
      if String.eqb element_tag_name "option" then
        element_value <- ask GetAttribute
                           (fun p => get_attribute b p element "value") ;;
        parent_element <- ask EvaluateHandleParentNode
                            (fun p => evaluate_handle_parentNode b p element) ;;
        (fun w =>
           match select_option b (page w) parent_element element_value with
           | Ok p' => (Ok tt, mkWorld p' (trace w ++ [SelectOption]))
           | Raise e => (Raise e, mkWorld (page w) (trace w ++ [SelectOption]))
           end) ;;;
        ret (mkOutcome
               (Some (selected_message element_value))
               (selected_message element_value ++
                ". The select element's outer HTML is: " ++
                element_outer_html ++ "."))
      else
        msg <- perform_javascript_click selector ;;
        ret (mkOutcome
               msg
               (Text.fstr msg ++ " The clicked element's outer HTML is: " ++
                element_outer_html ++ "."))
  end.

(** The pre-delay is counted in milliseconds; the code only tests its sign.
    The sleep and the log calls sit outside the [try] and return. *)
Definition do_click (selector : string) (wait_before_execution : Z)
  : M Outcome :=
  (if (0 <? wait_before_execution)%Z
   then call (Sleep wait_before_execution) else ret tt) ;;;
  try_except (do_click_body selector)
             (fun e => ret (failure selector e)).

(** *** click *)

(** The callback [detect_dom_changes] assigns the enclosing variable. *)
Definition detect_dom_changes (dom_changes_detected : option string)
  (changes : string) : option string :=
  Some changes.

(** The notifications delivered to the callback, oldest first. *)
Definition deliver (dom_changes_detected : option string)
  (notifications : list string) : option string :=
  fold_left detect_dom_changes notifications dom_changes_detected.

Definition changes_message (selector : string) (summary : option string)
  (dom_changes_detected : string) : string :=
  "Success: " ++ Text.fstr summary ++ "." ++ newline ++
  " As a consequence of this action, new elements have appeared in view: " ++
  dom_changes_detected ++
  ". This means that the action to click " ++ selector ++
  " is not yet executed and needs further interaction. Get all_fields DOM to complete the interaction.".

(** The part of [click] that runs on an open page. [during_click] and
    [during_settle] are the notifications the mutation observer delivers
    while [do_click] runs and during the half-second sleep after it. The
    calls to the session manager (screenshots, highlight, notification) are
    recorded and return. *)
Definition click_on_page (selector : string) (wait_before_execution : Z)
  (during_click during_settle : list string) : M string :=
  call (TakeScreenshots "click_start") ;;;
  call (HighlightElement selector) ;;;
  let dom_changes_detected := None in
  call Subscribe ;;;
  result <- do_click selector wait_before_execution ;;
  let dom_changes_detected := deliver dom_changes_detected during_click in
  call (Sleep 500) ;;;
  let dom_changes_detected := deliver dom_changes_detected during_settle in
  call Unsubscribe ;;;
  call (TakeScreenshots "click_end") ;;;
  call (NotifyUser (summary_message result)) ;;;
  if Text.truthy dom_changes_detected
  then ret (changes_message selector (summary_message result)
              (Text.fstr dom_changes_detected))
  else ret (detailed_message result).

Definition no_page_text : string :=
  "No active page found. OpenURL command opens a new page.".

(** [click]: [current] is what [get_current_page] returns. The result, the
    page left behind and every call made. *)
Definition click (selector : string) (wait_before_execution : Z)
  (during_click during_settle : list string) (current : option (Page b))
  : Res string * option (Page b) * list Call :=
  let made := [AddEvent "click"; GetCurrentPage] in
  match current with
  | None => (Raise (mkExn ValueError no_page_text), None, made)
  | Some p =>
      let '(r, w) :=
        click_on_page selector wait_before_execution
          during_click during_settle (mkWorld p made) in
      (r, Some (page w), trace w)
  end.

(** *** Vocabulary for the statements below *)

(** What the resolution of [do_click] yields on a page: it only reads. *)
Definition resolution (selector : string) (p : Page b) : Res (option Node) :=
  fst (find_element_within_iframes selector (mkWorld p [])).

(** Neither the page nor any of its frames gives a handle. *)
Definition NoHandle (selector : string) (p : Page b) : Prop :=
  query_selector b p (document b p) selector = Ok None /\
  Forall (fun frame => query_selector b p frame selector = Ok None)
         (frames b p).

(** The steps of the [try] block that the top-level handler guards
    directly. *)
Inductive Step : Type :=
  | Resolution | TagInspection | MarkupInspection
  | ValueRead | ParentLookup | SelectCall.

(** [RaisesAt selector p e step]: on page [p] the block reaches [step] and
    that call raises [e]. *)
Inductive RaisesAt (selector : string) (p : Page b) (e : PyExn)
  : Step -> Prop :=
  | raises_resolution :
      resolution selector p = Raise e ->
      RaisesAt selector p e Resolution
  | raises_tag (element : Node) :
      resolution selector p = Ok (Some element) ->
      evaluate_tagName b p element = Raise e ->
      RaisesAt selector p e TagInspection
  | raises_markup (element : Node) (tag : string) :
      resolution selector p = Ok (Some element) ->
      evaluate_tagName b p element = Ok tag ->
      get_element_outer_html b p element tag = Raise e ->
      RaisesAt selector p e MarkupInspection
  | raises_value (element : Node) (html : string) :
      resolution selector p = Ok (Some element) ->
      evaluate_tagName b p element = Ok "option" ->
      get_element_outer_html b p element "option" = Ok html ->
      get_attribute b p element "value" = Raise e ->
      RaisesAt selector p e ValueRead
  | raises_parent (element : Node) (html : string) (v : option string) :
      resolution selector p = Ok (Some element) ->
      evaluate_tagName b p element = Ok "option" ->
      get_element_outer_html b p element "option" = Ok html ->
      get_attribute b p element "value" = Ok v ->
      evaluate_handle_parentNode b p element = Raise e ->
      RaisesAt selector p e ParentLookup
  | raises_select (element : Node) (html : string) (v : option string)
      (parent : Node) :
      resolution selector p = Ok (Some element) ->
      evaluate_tagName b p element = Ok "option" ->
      get_element_outer_html b p element "option" = Ok html ->
      get_attribute b p element "value" = Ok v ->
      evaluate_handle_parentNode b p element = Ok parent ->
      select_option b p parent v = Raise e ->
      RaisesAt selector p e SelectCall.

(** What [perform_javascript_click] returns on a page: the script's string,
    or [None] when evaluating it raised. *)
Definition script_message (selector : string) (p : Page b) : option string :=
  match fst (click_script b selector p) with
  | Val message => Some message
  | Throw _ => None
  end.

(** The result of the [try] block read off the page it starts on. *)
Definition try_result (selector : string) (p : Page b) : Res Outcome :=
  match resolution selector p with
  | Raise e => Raise e
  | Ok None => Raise (mkExn ValueError (not_found_text selector))
  | Ok (Some element) =>
      match evaluate_tagName b p element with
      | Raise e => Raise e
      | Ok tag =>
          match get_element_outer_html b p element tag with
          | Raise e => Raise e
          | Ok html =>
              if String.eqb tag "option" then
                match get_attribute b p element "value" with
                | Raise e => Raise e
                | Ok v =>
                    match evaluate_handle_parentNode b p element with
                    | Raise e => Raise e
                    | Ok parent =>
                        match select_option b p parent v with
                        | Raise e => Raise e
                        | Ok _ =>
                            Ok (mkOutcome
                                  (Some (selected_message v))
                                  (selected_message v ++
                                   ". The select element's outer HTML is: " ++
                                   html ++ "."))
                        end
                    end
                end
              else
                Ok (mkOutcome
                      (script_message selector p)
                      (Text.fstr (script_message selector p) ++
                       " The clicked element's outer HTML is: " ++
                       html ++ "."))
          end
      end
  end.

(** The outcome [do_click] returns on a page: the [try] block's, or the
    handler's. *)
Definition outcome_on (selector : string) (p : Page b) : Outcome :=
  match try_result selector p with
  | Ok outcome => outcome
  | Raise e => failure selector e
  end.

(** The calls a run adds to the trace. *)
Definition calls_of {A : Type} (c : M A) (w : World (Page b)) : list Call :=
  skipn (length (trace w)) (trace (snd (c w))).

End WithBrowser.

End Skill.

(* ===================================================================== *)
(** ** telemetry.py *)

Module Telemetry.

Inductive EventType : Type :=
  | INTERACTION | STEP | TOOL | ASSERT | RUN | DETECTION | CONFIG.

Definition value (t : EventType) : string :=
  match t with
  | INTERACTION => "interaction"
  | STEP => "step"
  | TOOL => "tool"
  | ASSERT => "assert"
  | RUN => "run"
  | DETECTION => "detection"
  | CONFIG => "config"
  end.

Record EventData : Type := mkEventData {
  detail : option string;
  additional_data : option (list (string * string))
}.

(** The dictionary built for one event; [data] is [model_dump()] of the
    event data, which has the same two fields. *)
Record Event : Type := mkEvent { timestamp : string; data : EventData }.

Record Bucket : Type := mkBucket { events : list Event; event_count : Z }.

Record Collector : Type := mkCollector {
  installation_id : string;
  buckets : gmap string Bucket;
  start_time : string
}.

(** The module-level [event_collector] as first built. *)
Definition initial (id start : string) : Collector :=
  mkCollector id ∅ start.

Definition with_buckets (c : Collector) (bs : gmap string Bucket) : Collector :=
  mkCollector (installation_id c) bs (start_time c).

(** [add_event]; [now] is what [datetime.now().isoformat()] returns. *)
Definition add_event (ENABLE_TELEMETRY : bool) (now : string)
  (event_type : EventType) (event_data : EventData) (c : Collector)
  : Collector :=
  if negb ENABLE_TELEMETRY then c
  else
    let event := mkEvent now event_data in
    let key := value event_type in
    let bs :=
      match buckets c !! key with
      | None => <[key := mkBucket [] 0]> (buckets c)
      | Some _ => buckets c
      end in
    let bs :=
      alter (fun bk => mkBucket (events bk ++ [event]) (event_count bk)) key bs in
    let bs :=
      alter (fun bk => mkBucket (events bk) (event_count bk + 1)) key bs in
    with_buckets c bs.

(** A run of calls, each with the clock reading it sees. *)
Definition add_events (ENABLE_TELEMETRY : bool)
  (calls : list (string * EventType * EventData)) (c : Collector) : Collector :=
  fold_left (fun acc '(now, t, d) => add_event ENABLE_TELEMETRY now t d acc)
            calls c.

(** Every bucket counts exactly the events it holds. *)
Definition counts_agree (c : Collector) : Prop :=
  forall (key : string) (bk : Bucket),
    buckets c !! key = Some bk ->
    event_count bk = Z.of_nat (length (events bk)).

End Telemetry.

(* ===================================================================== *)
(** ** A small browser to run the skill on

    Pages are plain trees, selectors are [#id] or a tag name, a handle
    query sees the light tree of the frame it is asked on together with the
    shadow roots its elements expose, as Playwright's selector engine does,
    and any Playwright call can be made to raise through [fault]. *)

Module Fake.

Definition is_letter (c : ascii) : bool :=
  let n := nat_of_ascii (Text.lower_ascii c) in (Nat.leb 97 n && Nat.leb n 122)%bool.

Fixpoint all_letters (s : string) : bool :=
  match s with
  | EmptyString => true
  | String c r => (is_letter c && all_letters r)%bool
  end.

Definition has_id (id : string) (n : Node) : bool :=
  match getAttribute n "id" with
  | Some v => String.eqb v id
  | None => false
  end.

Definition parse_selector (selector : string) : option (Node -> bool) :=
  match selector with
  | EmptyString => None
  | String "#" id => Some (has_id id)
  | String _ _ =>
      if all_letters selector
      then Some (fun n => String.eqb (Text.toLowerCase (tagName n))
                                     (Text.toLowerCase selector))
      else None
  end.

Definition first_of {A B : Type} (f : A -> option B) : list A -> option B :=
  fix go (l : list A) : option B :=
    match l with
    | [] => None
    | x :: rest => match f x with Some y => Some y | None => go rest end
    end.

(** The element one of whose children passes [test]. *)
Fixpoint parent_in (test : Node -> bool) (n : Node) : option Node :=
  match n with
  | mkNode _ _ _ kids shadow content =>
      if existsb test kids then Some n
      else
        match first_of (parent_in test) kids with
        | Some p => Some p
        | None =>
            match
              match shadow with
              | Some sr => first_of (parent_in test) sr
              | None => None
              end
            with
            | Some p => Some p
            | None =>
                match content with
                | SameOrigin doc => first_of (parent_in test) doc
                | _ => None
                end
            end
        end
  end.

Definition element_id (n : Node) : string :=
  match getAttribute n "id" with Some v => v | None => EmptyString end.

Definition parent_of (p : Root) (el : Node) : option Node :=
  first_of (parent_in (has_id (element_id el))) p.

(** The tree with the element called [id] replaced. *)
Fixpoint replace_node (id : string) (new : Node) (n : Node) : Node :=
  if has_id id n then new
  else
    match n with
    | mkNode t a x kids shadow content =>
        mkNode t a x
          (map (replace_node id new) kids)
          (match shadow with
           | Some sr => Some (map (replace_node id new) sr)
           | None => None
           end)
          (match content with
           | SameOrigin doc => SameOrigin (map (replace_node id new) doc)
           | CrossOrigin doc => CrossOrigin doc
           | NoDocument => NoDocument
           end)
    end.

(** The page's click handler opens a collapsed disclosure. *)
Definition on_click (el : Node) : Node :=
  match getAttribute el "aria-expanded" with
  | Some v => if String.eqb v "false"
              then setAttribute el "aria-expanded" "true" else el
  | None => el
  end.

Definition run_click_handlers (p : Root) (el : Node) : Root * Node :=
  (map (replace_node (element_id el) (on_click el)) p, on_click el).

Definition set_value (p : Root) (parent : Node) (v : string) : Root :=
  map (replace_node (element_id parent) (setAttribute parent "value" v)) p.

(** The documents of the frames below an element, cross-origin ones too. *)
Fixpoint frame_documents (n : Node) : list Root :=
  match n with
  | mkNode _ _ _ kids shadow content =>
      (if is_iframe n then
         match content with
         | SameOrigin doc => doc :: flat_map frame_documents doc
         | CrossOrigin doc => doc :: flat_map frame_documents doc
         | NoDocument => []
         end
       else []) ++
      flat_map frame_documents kids ++
      match shadow with
      | Some sr => flat_map frame_documents sr
      | None => []
      end
  end.

Definition all_frames (p : Root) : list Root :=
  p :: flat_map frame_documents p.

(** The elements a handle query goes through below an element: the element,
    what the shadow root it exposes holds, then its children. The document
    of a frame is another frame's business. *)
Fixpoint composed (n : Node) : list Node :=
  match n with
  | mkNode _ _ _ kids shadow _ =>
      n :: (match shadow with
            | Some sr => flat_map composed sr
            | None => []
            end ++ flat_map composed kids)%list
  end.

Section Faults.

Variable fault : Call -> option string.

Definition guarded {A : Type} (c : Call) (r : Res A) : Res A :=
  match fault c with
  | Some message => Raise (mkExn PlaywrightError message)
  | None => r
  end.

Definition handle_query (p frame : Root) (selector : string)
  : Res (option Node) :=
  guarded QuerySelector
    match parse_selector selector with
    | Some m => Ok (List.find m (flat_map composed frame))
    | None => Raise (mkExn PlaywrightError "Unexpected token while parsing selector")
    end.

Definition select_on (p : Root) (parent : Node) (v : option string)
  : Res Root :=
  guarded SelectOption
    (if String.eqb (Text.toLowerCase (tagName parent)) "select"
     then Ok (set_value p parent (Text.fstr v))
     else Raise (mkExn PlaywrightError "Element is not a <select> element")).

Definition parent_handle (p : Root) (el : Node) : Res Node :=
  guarded EvaluateHandleParentNode
    match parent_of p el with
    | Some parent => Ok parent
    | None => Raise (mkExn PlaywrightError "parentNode is null")
    end.

Definition browser : Browser :=
  mkBrowser
    Root
    (fun p => p)
    parse_selector
    run_click_handlers
    parent_of
    set_value
    all_frames
    handle_query
    (fun _ _ => guarded ScrollIntoViewIfNeeded (Ok tt))
    (fun _ _ => guarded WaitForElementState (Ok tt))
    (fun _ el => guarded EvaluateTagName (Ok (Text.toLowerCase (tagName el))))
    (fun _ _ tag => guarded GetElementOuterHtml (Ok ("<" ++ tag ++ ">")))
    (fun _ el name => guarded GetAttribute (Ok (getAttribute el name)))
    parent_handle
    select_on.

End Faults.

Definition no_fault : Call -> option string := fun _ => None.

Definition fault_at (c : Call) (message : string) : Call -> option string :=
  fun c' =>
    match c, c' with
    | ScrollIntoViewIfNeeded, ScrollIntoViewIfNeeded
    | WaitForElementState, WaitForElementState
    | EvaluateTagName, EvaluateTagName
    | GetElementOuterHtml, GetElementOuterHtml
    | GetAttribute, GetAttribute
    | EvaluateHandleParentNode, EvaluateHandleParentNode
    | SelectOption, SelectOption
    | QuerySelector, QuerySelector => Some message
    | _, _ => None
    end.

(** *** Sample pages *)

Definition element (tag id : string) (attrs : list (string * string))
  (kids : list Node) : Node :=
  mkNode tag (("id", id) :: attrs) EmptyString kids None NoDocument.

Definition shadow_host (id : string) (root : list Node) : Node :=
  mkNode "DIV" [("id", id)] EmptyString [] (Some root) NoDocument.

Definition iframe (id : string) (content : FrameContent Root) : Node :=
  mkNode "IFRAME" [("id", id)] EmptyString [] None content.

(** A button that lives two shadow roots deep. *)
Definition shadow_page : Root :=
  [ element "DIV" "app" []
      [ shadow_host "outer" [ shadow_host "inner" [ element "BUTTON" "buy" [] [] ] ] ] ].

(** A collapsed menu button in the main document. *)
Definition menu_page : Root :=
  [ element "BUTTON" "menu" [("aria-expanded", "false")] [];
    element "A" "home" [("href", "/")] [] ].

(** A select with a plain option and one inside an option group. *)
Definition select_page : Root :=
  [ element "SELECT" "size" []
      [ element "OPTION" "small" [("value", "S")] [];
        element "OPTGROUP" "big" []
          [ element "OPTION" "large" [("value", "L")] [] ] ] ].

(** A cross-origin frame ahead of a shadow host and a same-origin frame. *)
Definition framed_page : Root :=
  [ iframe "ads" (CrossOrigin [ element "BUTTON" "buy" [] [] ]);
    shadow_host "widget" [ element "BUTTON" "pay" [] [] ];
    iframe "inner" (SameOrigin [ element "BUTTON" "ok" [] [] ]) ].

(** *** Browsers and elements the statements are tried on *)

Definition plain : Browser := browser no_fault.

Definition start (p : Root) : Skill.World Root := Skill.mkWorld p [].


Definition home_link : Node := element "A" "home" [("href", "/")] [].

Definition home_clicked : Skill.Outcome :=
  Skill.mkOutcome
    (Some "Executed JavaScript Click on element with selector: #home")
    "Executed JavaScript Click on element with selector: #home The clicked element's outer HTML is: <a>.".

Definition slow_scroll : Browser :=
  browser (fault_at ScrollIntoViewIfNeeded "Timeout 200ms exceeded").

Definition broken_tag : Browser :=
  browser (fault_at EvaluateTagName "Execution context was destroyed").

Definition stuck_select : Browser :=
  browser (fault_at SelectOption "Timeout 30000ms exceeded").

Definition small_option : Node := element "OPTION" "small" [("value", "S")] [].
Definition large_option : Node := element "OPTION" "large" [("value", "L")] [].

Definition menu_button : Node :=
  element "BUTTON" "menu" [("aria-expanded", "false")] [].

Definition ads_frame : Node :=
  iframe "ads" (CrossOrigin [ element "BUTTON" "buy" [] [] ]).

End Fake.

(* ===================================================================== *)
(** ** The calls [do_click] can make after its queries *)

Module Protocol.

(** Every way the [try] block can go on once the resolution is over, as the
    calls it makes: nothing (no handle, or a query raised), then the scroll
    and the wait, the tag and the markup, and either the three calls of the
    select path or the click script; the block stops after the call that
    raises. *)
Definition do_click_tails : list (list Call) :=
  [ [];
    [ScrollIntoViewIfNeeded; WaitForElementState; EvaluateTagName];
    [ScrollIntoViewIfNeeded; WaitForElementState; EvaluateTagName;
     GetElementOuterHtml];
    [ScrollIntoViewIfNeeded; WaitForElementState; EvaluateTagName;
     GetElementOuterHtml; GetAttribute];
    [ScrollIntoViewIfNeeded; WaitForElementState; EvaluateTagName;
     GetElementOuterHtml; GetAttribute; EvaluateHandleParentNode];
    [ScrollIntoViewIfNeeded; WaitForElementState; EvaluateTagName;
     GetElementOuterHtml; GetAttribute; EvaluateHandleParentNode;
     SelectOption];
    [ScrollIntoViewIfNeeded; WaitForElementState; EvaluateTagName;
     GetElementOuterHtml; EvaluateClickScript] ].

(** Reading a list of query results in order: the first that is a handle
    or an exception, and how many were read to get it; no handle when all
    of them are [None]. *)
Fixpoint first_answer (answers : list (Res (option Node)))
  : Res (option Node) * nat :=
  match answers with
  | [] => (Ok None, 0)
  | Ok None :: rest =>
      let '(answer, asked) := first_answer rest in (answer, S asked)
  | answer :: _ => (answer, 1)
  end.

(** What the queries of the resolution would answer on a page: the main
    document first, then the frames in order. *)
Definition answers_on (b : Browser) (selector : string) (p : Page b)
  : list (Res (option Node)) :=
  map (fun root => query_selector b p root selector)
      (document b p :: frames b p).




End Protocol.

(* ===================================================================== *)
(** ** telemetry.py: the final message and the Sentry hook *)

Module Sentry.

Import Telemetry.

(** The dictionary [build_final_message] returns; the comprehension copies
    the buckets key by key. *)
Record Message : Type := mkMessage {
  message_installation_id : string;
  session_start : string;
  message_buckets : gmap string Bucket
}.

Definition build_final_message (event_collector : Collector) : Message :=
  mkMessage (installation_id event_collector)
            (start_time event_collector)
            (buckets event_collector).

(** A value held by a Sentry event: the session summary the hook stores, or
    anything else. *)
Inductive Value : Type :=
  | Summary (message : Message)
  | Opaque (repr : string).

(** A Sentry event: the two keys the hook looks at, each present or not,
    and its other keys. *)
Record SentryEvent : Type := mkSentryEvent {
  extra : option (gmap string Value);
  contexts : option (gmap string Value);
  other_keys : gmap string Value
}.

(** The hint: [exc_info], when the key is there, is a sequence whose first
    item is the exception class (here its name) or [None]. *)
Record Hint : Type := mkHint { exc_info : option (list (option string)) }.

Inductive HookError : Type :=
  | KeyError (key : string)
  | IndexError.

(** [hint.get("exc_info", [None])[0]]. *)
Definition first_exc_info (hint : Hint) : HookError + option string :=
  match exc_info hint with
  | None => inr None
  | Some [] => inl IndexError
  | Some (exception_class :: _) => inr exception_class
  end.

Definition is_zero_division (exception_class : option string) : bool :=
  match exception_class with
  | Some name => String.eqb name "ZeroDivisionError"
  | None => false
  end.

(** [my_before_send]: [inr None] drops the event. *)
Definition my_before_send (event_collector : Collector)
  (event : SentryEvent) (hint : Hint) : HookError + option SentryEvent :=
  match first_exc_info hint with
  | inl e => inl e
  | inr exception_class =>
      if is_zero_division exception_class then inr None
      else
        match extra event with
        | None => inl (KeyError "extra")
        | Some fields =>
            let fields :=
              <["session_summary" :=
                  Summary (build_final_message event_collector)]> fields in
            let contexts :=
              match contexts event with
              | Some entries =>
                  match entries !! "argv" with
                  | Some _ => Some (delete "argv" entries)
                  | None => Some entries
                  end
              | None => None
              end in
            inr (Some (mkSentryEvent (Some fields) contexts (other_keys event)))
        end
  end.

(** The events of one type among the calls of a run, as [add_event] builds
    them, oldest first. *)
Definition events_of (t : EventType)
  (calls : list (string * EventType * EventData)) : list Event :=
  flat_map (fun '(now, t', d) =>
              if String.eqb (value t') (value t) then [mkEvent now d] else [])
           calls.

(** The bucket a run leaves under a key, from the bucket it found there
    and the events the run adds to it. *)
Definition extended (old : option Bucket) (added : list Event)
  : option Bucket :=
  match added with
  | [] => old
  | _ :: _ =>
      Some (mkBucket
              (default [] (events <$> old) ++ added)
              (default 0%Z (event_count <$> old) + Z.of_nat (length added)))
  end.

End Sentry.

(* ===================================================================== *)
(** ** telemetry.py: the installation id *)

Module Installation.

(** Python's [str.isspace] on one character below 256. *)
Definition is_space (c : ascii) : bool :=
  let n := nat_of_ascii c in
  ((Nat.leb 9 n && Nat.leb n 13) || (Nat.leb 28 n && Nat.leb n 32) ||
   Nat.eqb n 133 || Nat.eqb n 160)%bool.

Fixpoint lstrip (s : string) : string :=
  match s with
  | EmptyString => EmptyString
  | String c rest => if is_space c then lstrip rest else s
  end.

Fixpoint rstrip (s : string) : string :=
  match s with
  | EmptyString => EmptyString
  | String c rest =>
      match rstrip rest with
      | EmptyString => if is_space c then EmptyString else String c EmptyString
      | String c' rest' => String c (String c' rest')
      end
  end.

(** [str.strip()]. *)
Definition strip (s : string) : string := rstrip (lstrip s).

(** The files the function can see: under each existing path, the text
    [read()] gives for it, as characters below 256. *)
Definition Files : Type := gmap string string.

Definition default_path : string := "installation_id.txt".

(** [get_installation_id]; [fresh] is what [str(uuid.uuid4())] gives when
    it is asked. The id returned and the files left. *)
Definition get_installation_id (fresh : string) (file_path : string)
  (files : gmap string string) : string * gmap string string :=
  match files !! file_path with
  | Some content => (strip content, files)
  | None => (fresh, <[file_path := fresh]> files)
  end.

End Installation.

(* ===================================================================== *)
(** ** More pages and browsers to try the statements on *)

Module Cases.

Import Fake.

(** A page query that also takes Playwright's [text=] selectors, which are
    not CSS. *)
Definition text_of_selector (selector : string) : option string :=
  match selector with
  | String "t" (String "e" (String "x" (String "t" (String "=" wanted)))) =>
      Some wanted
  | _ => None
  end.

Definition text_query (p frame : Root) (selector : string)
  : Res (option Node) :=
  match text_of_selector selector with
  | Some wanted =>
      Ok (querySelector (fun n => String.eqb (text n) wanted) frame)
  | None => handle_query no_fault p frame selector
  end.

Definition text_browser : Browser :=
  mkBrowser
    Root
    (fun p => p)
    parse_selector
    run_click_handlers
    parent_of
    set_value
    all_frames
    text_query
    (fun _ _ => Ok tt)
    (fun _ _ => Ok tt)
    (fun _ el => Ok (Text.toLowerCase (tagName el)))
    (fun _ _ tag => Ok ("<" ++ tag ++ ">"))
    (fun _ el name => Ok (getAttribute el name))
    (parent_handle no_fault)
    (select_on no_fault).

Definition save_button : Node :=
  mkNode "BUTTON" [("id", "save")] "Save" [] None NoDocument.

Definition text_page : Root := [ save_button ].

(** A same-origin frame holding a button, after a main document without. *)
Definition frame_button : Node := element "BUTTON" "ok" [] [].

Definition two_frame_page : Root :=
  [ iframe "first" (SameOrigin [ element "P" "intro" [] [] ]);
    iframe "second" (SameOrigin [ frame_button ]);
    iframe "third" (SameOrigin [ element "BUTTON" "ok" [] [] ]) ].

Definition blocked_button : Node := element "BUTTON" "buy" [] [].

Definition sample_event : Sentry.SentryEvent :=
  Sentry.mkSentryEvent
    (Some {[ "sys.argv" := Sentry.Opaque "None" ]})
    (Some {[ "argv" := Sentry.Opaque "--token"; "os" := Sentry.Opaque "linux" ]})
    {[ "message" := Sentry.Opaque "Program execution summary" ]}.

Definition sample_collector : Telemetry.Collector :=
  Telemetry.add_event true "2024-11-05T10:00:00"
    Telemetry.INTERACTION
    (Telemetry.mkEventData (Some "click") None)
    (Telemetry.initial "1b4e28ba-2fa1-11d2-883f-0016d3cca427"
                       "2024-11-05T09:59:58").

Definition value_error_hint : Sentry.Hint :=
  Sentry.mkHint (Some [Some "ValueError"; None; None]).

Definition sent_event : Sentry.SentryEvent :=
  Sentry.mkSentryEvent
    (Some {[ "sys.argv" := Sentry.Opaque "None";
             "session_summary" :=
               Sentry.Summary (Sentry.build_final_message sample_collector) ]})
    (Some {[ "os" := Sentry.Opaque "linux" ]})
    {[ "message" := Sentry.Opaque "Program execution summary" ]}.

Definition sample_uuid : string := "1b4e28ba-2fa1-11d2-883f-0016d3cca427".

End Cases.

(* ===================================================================== *)
(** * Facts *)

(** ** Strings *)

Module TextFacts.

Import Text.

Lemma append_cons (c : ascii) (s rest : string) :
  String.append (String c s) rest = String c (String.append s rest).
Proof. reflexivity. Qed.

Lemma append_empty_l (s : string) : String.append EmptyString s = s.
Proof. reflexivity. Qed.

Lemma starts_with_app (s rest : string) : starts_with s (s ++ rest) = true.
Proof.
  induction s as [|c s IH].
  - reflexivity.
  - rewrite append_cons. cbn [starts_with].
    rewrite Ascii.eqb_refl. exact IH.
Qed.

Lemma str_in_here (s rest : string) : str_in s (s ++ rest) = true.
Proof.
  destruct (String.append s rest) eqn:E.
  - destruct s; [reflexivity | rewrite append_cons in E; discriminate E].
  - cbn [str_in]. rewrite <- E, starts_with_app. reflexivity.
Qed.

Lemma str_in_app (before s rest : string) :
  str_in s (before ++ s ++ rest) = true.
Proof.
  induction before as [|c before IH].
  - rewrite append_empty_l. apply str_in_here.
  - rewrite append_cons. cbn [str_in]. rewrite IH. apply orb_true_r.
Qed.

Lemma append_empty (s : string) : String.append s EmptyString = s.
Proof.
  induction s as [|c s IH]; [reflexivity | rewrite append_cons; now f_equal].
Qed.

Lemma str_in_tail (before s : string) : str_in s (before ++ s) = true.
Proof.
  pose proof (str_in_app before s EmptyString) as H.
  now rewrite append_empty in H.
Qed.

Lemma append_assoc (a c d : string) : ((a ++ c) ++ d = a ++ (c ++ d))%string.
Proof.
  induction a as [|x a IH]; [reflexivity | rewrite !append_cons; now f_equal].
Qed.

Lemma str_in_skip (needle before hay : string) :
  str_in needle hay = true -> str_in needle (before ++ hay) = true.
Proof.
  intros H. induction before as [|c before IH]; [exact H|].
  rewrite append_cons. cbn [str_in]. rewrite IH.
  apply orb_true_r.
Qed.

Lemma str_in_prefix (needle hay rest : string) :
  str_in needle hay = true -> str_in needle (hay ++ rest) = true.
Proof.
  assert (P : forall n h r, starts_with n h = true ->
                            starts_with n (h ++ r) = true).
  { induction n as [|c n IH]; intros [|d h] r H; try reflexivity; try discriminate H.
    rewrite append_cons. cbn [starts_with] in *.
    apply andb_prop in H as [-> H]. now apply IH. }
  induction hay as [|c hay IH]; intros H.
  - cbn [str_in] in H. rewrite orb_false_r in H.
    destruct needle; [|discriminate H]. destruct rest; reflexivity.
  - rewrite append_cons. cbn [str_in] in *.
    apply orb_prop in H as [H|H].
    + apply (P _ _ rest) in H. rewrite append_cons in H.
      now rewrite H.
    + rewrite (IH H). apply orb_true_r.
Qed.

Lemma truthy_nonempty (s : string) :
  s <> EmptyString -> truthy (Some s) = true.
Proof. destruct s; [congruence | reflexivity]. Qed.

End TextFacts.

(** ** The in-page search *)

Module DomFacts.

Lemma for_of_app {A : Type} (body : A -> JsRes (option Node)) (l1 l2 : list A) :
  for_of body (l1 ++ l2) =
  match for_of body l1 with
  | Val None => for_of body l2
  | r => r
  end.
Proof.
  induction l1 as [|x l1 IH]; simpl.
  - reflexivity.
  - destruct (body x) as [[found|]|e]; auto.
Qed.

(** The recursion on the tree is the script's loop body followed by the
    children. *)
Lemma visit_unfold (m : Node -> bool) (el : Node) :
  visit m el =
  match loop_body m el with
  | Val (Some found) => Val (Some found)
  | Throw e => Throw e
  | Val None => for_of (visit m) (children el)
  end.
Proof.
  destruct el as [t a x kids shadow content].
  unfold loop_body, findElementInShadowDOMAndIframes, contentDocument.
  cbn [visit shadowRoot frame children try_contentDocument].
  destruct shadow as [sr|].
  - destruct (querySelector m sr); [reflexivity|].
    destruct (for_of (visit m) sr) as [[found|]|e]; try reflexivity.
    destruct (is_iframe _); [|reflexivity].
    destruct content; reflexivity.
  - destruct (is_iframe _); [|reflexivity].
    destruct content; reflexivity.
Qed.

Lemma visit_is_loop (m : Node -> bool) (el : Node) :
  visit m el = for_of (loop_body m) (self_and_descendants el).
Proof.
  induction el as [t a x kids shadow content IHkids _ _] using node_induction.
  rewrite visit_unfold. cbn [self_and_descendants children for_of].
  destruct (loop_body m _) as [[found|]|e]; try reflexivity.
  induction IHkids as [|y kids Hy _ IH]; cbn [for_of flat_map].
  - reflexivity.
  - rewrite for_of_app, <- Hy, IH. destruct (visit m y) as [[?|]|?]; reflexivity.
Qed.

Lemma for_of_visit (m : Node -> bool) (parent : Root) :
  for_of (visit m) parent = for_of (loop_body m) (querySelectorAll_star parent).
Proof.
  unfold querySelectorAll_star.
  induction parent as [|y parent IH]; cbn [for_of flat_map].
  - reflexivity.
  - rewrite for_of_app, <- visit_is_loop, IH.
    destruct (visit m y) as [[?|]|?]; reflexivity.
Qed.

(** The helper as the script states it: [querySelector] on the root, then
    the loop over [querySelectorAll('*')]. *)
Lemma find_unfold (m : Node -> bool) (parent : Root) :
  findElementInShadowDOMAndIframes m parent =
  match querySelector m parent with
  | Some element => Val (Some element)
  | None => for_of (loop_body m) (querySelectorAll_star parent)
  end.
Proof.
  unfold findElementInShadowDOMAndIframes. now rewrite for_of_visit.
Qed.

Lemma for_of_returns {A : Type} (body : A -> JsRes (option Node)) (l : list A) :
  Forall (fun x => exists r, body x = Val r) l ->
  exists r, for_of body l = Val r.
Proof.
  induction 1 as [|x l [r Hx] _ IH]; cbn [for_of].
  - now exists None.
  - rewrite Hx. destruct r as [found|]; [now exists (Some found) | exact IH].
Qed.

(** No error leaves the recursion: the only throwing step, the frame
    access, sits inside the [try]. *)
Lemma visit_returns (m : Node -> bool) (el : Node) :
  exists r, visit m el = Val r.
Proof.
  induction el as [t a x kids shadow content IHkids IHshadow IHframe]
    using node_induction.
  assert (search : forall parent, Forall (fun n => exists r, visit m n = Val r) parent ->
            exists r, match querySelector m parent with
                      | Some found => Val (Some found)
                      | None => for_of (visit m) parent
                      end = Val r).
  { intros parent H. destruct (querySelector m parent) as [found|].
    - now exists (Some found).
    - now apply for_of_returns. }
  cbn [visit].
  assert (Hs : exists r, match shadow with
                         | Some sr => match querySelector m sr with
                                      | Some found => Val (Some found)
                                      | None => for_of (visit m) sr
                                      end
                         | None => Val None
                         end = Val r).
  { destruct shadow as [sr|]; [now apply search | now exists None]. }
  destruct Hs as [rs ->]. destruct rs as [found|]; [now exists (Some found)|].
  assert (Hf : exists r,
            (if is_iframe (mkNode t a x kids shadow content) then
               try_contentDocument content (fun _ => Val None)
                 (fun iframeDocument =>
                    match iframeDocument with
                    | Some doc => match querySelector m doc with
                                  | Some found => Val (Some found)
                                  | None => for_of (visit m) doc
                                  end
                    | None => Val None
                    end)
             else Val None) = Val r).
  { destruct (is_iframe _); [|now exists None].
    destruct content as [doc|doc|]; cbn [try_contentDocument];
      [now apply search | now exists None | now exists None]. }
  destruct Hf as [rf ->]. destruct rf as [found|]; [now exists (Some found)|].
  now apply for_of_returns.
Qed.

Lemma find_returns (m : Node -> bool) (parent : Root) :
  exists r, findElementInShadowDOMAndIframes m parent = Val r.
Proof.
  unfold findElementInShadowDOMAndIframes.
  destruct (querySelector m parent) as [found|]; [now exists (Some found)|].
  apply for_of_returns, Forall_forall. intros n _. apply visit_returns.
Qed.

Lemma loop_body_returns (m : Node -> bool) (el : Node) :
  exists r, loop_body m el = Val r.
Proof.
  unfold loop_body.
  assert (Hs : exists r, match shadowRoot el with
                         | Some sr => findElementInShadowDOMAndIframes m sr
                         | None => Val None
                         end = Val r).
  { destruct (shadowRoot el); [apply find_returns | now exists None]. }
  destruct Hs as [rs ->]. destruct rs as [found|]; [now exists (Some found)|].
  destruct (is_iframe el); [|now exists None].
  destruct (contentDocument el) as [[doc|]|e];
    [apply find_returns | now exists None | now exists None].
Qed.

Lemma for_of_hit {A : Type} (body : A -> JsRes (option Node)) (l : list A)
  (x : A) (found : Node) :
  Forall (fun y => exists r, body y = Val r) l ->
  In x l ->
  body x = Val (Some found) ->
  exists found', for_of body l = Val (Some found').
Proof.
  induction 1 as [|y l [r Hy] _ IH]; intros Hin Hx.
  - destruct Hin.
  - cbn [for_of]. rewrite Hy. destruct r as [f|]; [now exists f|].
    destruct Hin as [->|Hin]; [congruence | now apply IH].
Qed.

Lemma for_of_loop_hit (m : Node -> bool) (parent : Root) (el found : Node) :
  In el (querySelectorAll_star parent) ->
  loop_body m el = Val (Some found) ->
  exists found', findElementInShadowDOMAndIframes m parent = Val (Some found').
Proof.
  intros Hin Hel. rewrite find_unfold.
  destruct (querySelector m parent) as [e|]; [now exists e|].
  apply for_of_hit with (x := el) (found := found); auto.
  apply Forall_forall. intros y _. apply loop_body_returns.
Qed.

(** The search is complete: a matching element the script can reach makes
    the helper return an element. *)
Lemma find_complete (m : Node -> bool) (parent : Root) (n : Node) :
  Reaches parent n -> m n = true ->
  exists found, findElementInShadowDOMAndIframes m parent = Val (Some found).
Proof.
  intros H Hm.
  induction H as [parent n Hin
                 | parent host sr n Hin Hsr _ IH
                 | parent el doc n Hin Hif Hdoc _ IH].
  - unfold findElementInShadowDOMAndIframes, querySelector.
    destruct (List.find m (querySelectorAll_star parent)) as [e|] eqn:E.
    + now exists e.
    + apply List.find_none with (x := n) in E; [congruence | exact Hin].
  - destruct (IH Hm) as [found Hfound].
    apply for_of_loop_hit with (el := host) (found := found); [exact Hin|].
    unfold loop_body. now rewrite Hsr, Hfound.
  - destruct (IH Hm) as [found Hfound].
    destruct (loop_body_returns m el) as [r Hr].
    assert (exists f, loop_body m el = Val (Some f)) as [f Hf].
    { revert Hr. unfold loop_body, contentDocument. rewrite Hif, Hdoc, Hfound.
      destruct (match shadowRoot el with
                | Some sr => findElementInShadowDOMAndIframes m sr
                | None => Val None
                end) as [[f|]|e]; intros Hr.
      - now exists f.
      - now exists found.
      - discriminate Hr. }
    now apply for_of_loop_hit with (el := el) (found := f).
Qed.

Lemma for_of_found {A : Type} (body : A -> JsRes (option Node)) (l : list A)
  (found : Node) :
  for_of body l = Val (Some found) ->
  exists x, In x l /\ body x = Val (Some found).
Proof.
  induction l as [|y l IH]; cbn [for_of]; intros H.
  - discriminate H.
  - destruct (body y) as [[f|]|e] eqn:Ey.
    + exists y. split; [now left | congruence].
    + destruct (IH H) as (x & Hin & Hx). exists x. split; [now right | exact Hx].
    + discriminate H.
Qed.

Lemma find_sound_from (m : Node -> bool) (parent : Root) :
  Forall (SoundBelow m) parent ->
  forall found,
    findElementInShadowDOMAndIframes m parent = Val (Some found) ->
    m found = true /\ Reaches parent found.
Proof.
  intros Hall found. rewrite find_unfold. unfold querySelector.
  destruct (List.find m (querySelectorAll_star parent)) as [e|] eqn:E.
  - intros [= ->]. apply List.find_some in E as [Hin Hm].
    split; [exact Hm | now apply reach_light].
  - intros H. apply for_of_found in H as (el & Hin & Hel).
    pose proof Hin as Hin'.
    unfold querySelectorAll_star in Hin'.
    apply in_flat_map in Hin' as (y & Hy & Hely).
    rewrite List.Forall_forall in Hall.
    destruct (Hall y Hy el found Hely Hel) as [Hm Hbelow].
    split; [exact Hm|].
    destruct Hbelow as [(sr & Hsr & Hr) | (Hif & doc & Hdoc & Hr)].
    + exact (reach_shadow parent el sr found Hin Hsr Hr).
    + exact (reach_frame parent el doc found Hin Hif Hdoc Hr).
Qed.

Lemma sound_below (m : Node -> bool) (n : Node) : SoundBelow m n.
Proof.
  induction n as [t a x kids shadow content IHkids IHshadow IHframe]
    using node_induction.
  intros el found Hin Hel.
  cbn [self_and_descendants] in Hin. destruct Hin as [<-|Hin].
  - revert Hel. unfold loop_body, contentDocument.
    cbn [shadowRoot frame].
    destruct shadow as [sr|].
    + destruct (findElementInShadowDOMAndIframes m sr) as [[f|]|e] eqn:Es.
      * intros [= ->].
        destruct (find_sound_from m sr IHshadow found Es) as [Hm Hr].
        split; [exact Hm|]. left. now exists sr.
      * destruct (is_iframe _) eqn:Hif; [|discriminate].
        destruct content as [doc|doc|]; try discriminate.
        intros Hd. destruct (find_sound_from m doc IHframe found Hd) as [Hm Hr].
        split; [exact Hm|]. right. split; [exact Hif|]. now exists doc.
      * discriminate.
    + destruct (is_iframe _) eqn:Hif; [|discriminate].
      destruct content as [doc|doc|]; try discriminate.
      intros Hd. destruct (find_sound_from m doc IHframe found Hd) as [Hm Hr].
      split; [exact Hm|]. right. split; [exact Hif|]. now exists doc.
  - apply in_flat_map in Hin as (y & Hy & Hely).
    rewrite List.Forall_forall in IHkids.
    exact (IHkids y Hy el found Hely Hel).
Qed.

(** The search is sound: what the helper returns matches the selector and
    is reachable, which the content of a cross-origin frame never is. *)
Lemma find_sound (m : Node -> bool) (parent : Root) (found : Node) :
  findElementInShadowDOMAndIframes m parent = Val (Some found) ->
  m found = true /\ Reaches parent found.
Proof.
  apply find_sound_from, List.Forall_forall. intros n _. apply sound_below.
Qed.

End DomFacts.

(** ** The skill *)

Module SkillFacts.

Import Skill Script.

Section WithBrowser.

Variable b : Browser.

Lemma query_frames_reads (selector : string) (fs : list Root) :
  forall w : World (Page b),
  exists calls,
    query_frames b selector fs w =
      (fst (query_frames b selector fs (mkWorld (page w) [])),
       mkWorld (page w) (trace w ++ calls)) /\
    Forall (eq QuerySelector) calls.
Proof.
  induction fs as [|frame rest IH]; intros w.
  - exists []. rewrite app_nil_r. destruct w; split; [reflexivity | constructor].
  - cbn [query_frames]. unfold bind, ask, ret. cbn [page trace].
    destruct (query_selector b (page w) frame selector) as [[element|]|e].
    + exists [QuerySelector]. split; [reflexivity | repeat constructor].
    + destruct (IH (mkWorld (page w) (trace w ++ [QuerySelector]))) as (calls & E & F).
      destruct (IH (mkWorld (page w) ([] ++ [QuerySelector]))) as (calls' & E' & _).
      cbn [page trace] in *.
      exists (QuerySelector :: calls). rewrite E, E'. cbn [fst].
      rewrite <- app_assoc. split; [reflexivity | now constructor].
    + exists [QuerySelector]. split; [reflexivity | repeat constructor].
Qed.

Lemma find_reads (selector : string) (w : World (Page b)) :
  exists calls,
    find_element_within_iframes b selector w =
      (resolution b selector (page w), mkWorld (page w) (trace w ++ calls)) /\
    Forall (eq QuerySelector) calls.
Proof.
  unfold resolution, find_element_within_iframes, bind, ask, ret. cbn [page trace].
  destruct (query_selector b (page w) (document b (page w)) selector) as [[element|]|e].
  - exists [QuerySelector]. split; [reflexivity | repeat constructor].
  - destruct (query_frames_reads selector (frames b (page w))
                (mkWorld (page w) (trace w ++ [QuerySelector]))) as (calls & E & F).
    destruct (query_frames_reads selector (frames b (page w))
                (mkWorld (page w) ([] ++ [QuerySelector]))) as (calls' & E' & _).
    cbn [page trace] in *.
    exists (QuerySelector :: calls). rewrite E, E'. cbn [fst].
    rewrite <- app_assoc. split; [reflexivity | now constructor].
  - exists [QuerySelector]. split; [reflexivity | repeat constructor].
Qed.


Lemma perform_javascript_click_eq (selector : string) (w : World (Page b)) :
  perform_javascript_click b selector w =
    (Ok (script_message b selector (page w)),
     mkWorld (snd (click_script b selector (page w)))
             (trace w ++ [EvaluateClickScript])).
Proof.
  unfold perform_javascript_click, script_message, try_except, bind, ret.
  destruct (click_script b selector (page w)) as [[message|e] p']; reflexivity.
Qed.

(** The [try] block returns what [try_result] says, on a world that extends
    the trace. *)
Lemma do_click_body_eq (selector : string) (w : World (Page b)) :
  exists p' calls,
    do_click_body b selector w =
      (try_result b selector (page w), mkWorld p' (trace w ++ calls)).
Proof.
  unfold do_click_body, try_result.
  destruct (find_reads selector w) as (calls & E & _).
  unfold bind at 1. rewrite E.
  destruct (resolution b selector (page w)) as [[element|]|e].
  2: { now exists (page w), calls. }
  2: { now exists (page w), calls. }
  unfold bind, try_except, ask, ret, raise. cbn [page trace].
  destruct (scroll_into_view_if_needed b (page w) element) as [u1|e1]; cbn [page trace];
  destruct (wait_for_element_state b (page w) element) as [u2|e2]; cbn [page trace];
  (destruct (evaluate_tagName b (page w) element) as [tag|e]; cbn [page trace];
   [|eexists _, _; rewrite <- !app_assoc; reflexivity]);
  (destruct (get_element_outer_html b (page w) element tag) as [html|e];
   cbn [page trace];
   [|eexists _, _; rewrite <- !app_assoc; reflexivity]);
  (destruct (String.eqb tag "option");
   [ cbn [page trace];
     (destruct (get_attribute b (page w) element "value") as [v|e];
      cbn [page trace];
      [|eexists _, _; rewrite <- !app_assoc; reflexivity]);
     (destruct (evaluate_handle_parentNode b (page w) element) as [parent|e];
      cbn [page trace];
      [|eexists _, _; rewrite <- !app_assoc; reflexivity]);
     (destruct (select_option b (page w) parent v) as [p'|e];
      cbn [page trace];
      eexists _, _; rewrite <- !app_assoc; reflexivity)
   | rewrite perform_javascript_click_eq; cbn [page trace];
     eexists _, _; rewrite <- !app_assoc; reflexivity ]).
Qed.

Lemma do_click_eq (selector : string) (wait : Z) (w : World (Page b)) :
  exists p' calls,
    do_click b selector wait w =
      (Ok match try_result b selector (page w) with
          | Ok outcome => outcome
          | Raise e => failure selector e
          end,
       mkWorld p' (trace w ++ calls)).
Proof.
  unfold do_click, bind, try_except, call, ret.
  destruct (0 <? wait)%Z.
  - destruct (do_click_body_eq selector
                (mkWorld (page w) (trace w ++ [Sleep wait]))) as (p' & calls & E).
    rewrite E. cbn [page trace].
    destruct (try_result b selector (page w));
      eexists _, _; rewrite <- !app_assoc; reflexivity.
  - destruct (do_click_body_eq selector w) as (p' & calls & E).
    rewrite E. destruct (try_result b selector (page w)); eexists _, _; reflexivity.
Qed.


Lemma skipn_app_exact {A : Type} (l extra : list A) :
  skipn (length l) (l ++ extra) = extra.
Proof. induction l as [|x l IH]; [reflexivity | exact IH]. Qed.

Lemma query_frames_none (selector : string) (p : Page b) (fs : list Root) :
  Forall (fun frame => query_selector b p frame selector = Ok None) fs ->
  forall tr, fst (query_frames b selector fs (mkWorld p tr)) = Ok None.
Proof.
  induction 1 as [|frame rest H _ IH]; intros tr.
  - reflexivity.
  - cbn [query_frames]. unfold bind, ask. cbn [page trace]. rewrite H. apply IH.
Qed.

Lemma no_handle_resolution (selector : string) (p : Page b) :
  NoHandle b selector p -> resolution b selector p = Ok None.
Proof.
  intros [Hmain Hframes].
  unfold resolution, find_element_within_iframes, bind, ask.
  cbn [page trace]. rewrite Hmain. now apply query_frames_none.
Qed.

Lemma do_click_result (selector : string) (wait : Z) (w : World (Page b)) :
  fst (do_click b selector wait w) =
    Ok match try_result b selector (page w) with
       | Ok outcome => outcome
       | Raise e => failure selector e
       end.
Proof.
  destruct (do_click_eq selector wait w) as (p' & calls & E). now rewrite E.
Qed.

Lemma raises_at_try_result (selector : string) (p : Page b) (e : PyExn)
  (step : Step) :
  RaisesAt b selector p e step -> try_result b selector p = Raise e.
Proof.
  unfold try_result.
  destruct 1 as [Hr | el Hr Ht | el tag Hr Ht Hm | el html Hr Ht Hm Hv
                | el html v Hr Ht Hm Hv Hp | el html v parent Hr Ht Hm Hv Hp Hs];
    rewrite Hr; try rewrite Ht; try rewrite Hm; cbn [String.eqb];
    try rewrite Hv; try rewrite Hp; try rewrite Hs; try reflexivity.
Qed.


Lemma unable_message_names_selector (selector : string) :
  Text.str_in selector (unable_message selector) = true.
Proof.
  unfold unable_message. rewrite <- TextFacts.append_assoc.
  apply TextFacts.str_in_app.
Qed.

Lemma unable_message_advice (selector : string) :
  Text.str_in "since the selector is invalid. Proceed by retrieving DOM again."
              (unable_message selector) = true.
Proof.
  unfold unable_message.
  rewrite <- !TextFacts.append_assoc.
  change (" since the selector is invalid. Proceed by retrieving DOM again.")
    with (" " ++ "since the selector is invalid. Proceed by retrieving DOM again.").
  rewrite <- TextFacts.append_assoc. apply TextFacts.str_in_tail.
Qed.

(** C2. A locator for which neither the page nor any frame yields a handle:
    [do_click] returns (it does not raise) the failure outcome, whose
    messages contain the locator as written and the advice to retrieve the
    DOM again because the selector is invalid. *)
Theorem do_click_reports_no_match (selector : string) (wait : Z)
  (w : World (Page b)) :
  NoHandle b selector (page w) ->
  let outcome := failure selector (mkExn ValueError (not_found_text selector)) in
  (exists w', do_click b selector wait w = (Ok outcome, w')) /\
  summary_message outcome = Some (unable_message selector) /\
  Text.str_in selector (unable_message selector) = true /\
  Text.str_in "since the selector is invalid. Proceed by retrieving DOM again."
              (unable_message selector) = true /\
  Text.str_in selector (detailed_message outcome) = true /\
  Text.str_in "since the selector is invalid. Proceed by retrieving DOM again."
              (detailed_message outcome) = true.
Proof.
  intros H outcome.
  destruct (do_click_eq selector wait w) as (p' & calls & E).
  unfold try_result in E. rewrite (no_handle_resolution _ _ H) in E.
  repeat split.
  - eexists. exact E.
  - apply unable_message_names_selector.
  - apply unable_message_advice.
  - cbn [outcome failure detailed_message].
    apply TextFacts.str_in_prefix, unable_message_names_selector.
  - cbn [outcome failure detailed_message].
    apply TextFacts.str_in_prefix, unable_message_advice.
Qed.


Lemma queries_are_not_clicks (calls : list Call) :
  Forall (eq QuerySelector) calls -> ~ In EvaluateClickScript calls.
Proof.
  intros F H. rewrite List.Forall_forall in F. specialize (F _ H). discriminate F.
Qed.

(** The [try] block on an element whose tag reads [option]. *)
Lemma option_branch_body (selector : string) (w : World (Page b))
  (element : Node) :
  resolution b selector (page w) = Ok (Some element) ->
  evaluate_tagName b (page w) element = Ok "option" ->
  exists p' calls,
    do_click_body b selector w =
      (try_result b selector (page w), mkWorld p' (trace w ++ calls)) /\
    ~ In EvaluateClickScript calls /\
    (forall html v parent p2,
        get_element_outer_html b (page w) element "option" = Ok html ->
        get_attribute b (page w) element "value" = Ok v ->
        evaluate_handle_parentNode b (page w) element = Ok parent ->
        select_option b (page w) parent v = Ok p2 ->
        p' = p2 /\ In GetAttribute calls /\
        In EvaluateHandleParentNode calls /\ In SelectOption calls).
Proof.
  intros Hr Ht.
  unfold do_click_body, try_result.
  destruct (find_reads selector w) as (calls & E & F).
  apply queries_are_not_clicks in F.
  unfold bind at 1. rewrite E, Hr, Ht.
  unfold bind, try_except, ask, ret, raise. cbn [page trace].
  destruct (scroll_into_view_if_needed b (page w) element) as [u1|e1];
    cbn [page trace];
  destruct (wait_for_element_state b (page w) element) as [u2|e2];
    cbn [page trace]; rewrite Ht; cbn [page trace];
  (destruct (get_element_outer_html b (page w) element "option")
     as [html|e] eqn:Eo;
   cbn [page trace String.eqb Ascii.eqb Bool.eqb];
   [ destruct (get_attribute b (page w) element "value") as [v|e] eqn:Ev;
     cbn [page trace];
     [ destruct (evaluate_handle_parentNode b (page w) element)
         as [parent|e] eqn:Ep;
       cbn [page trace];
       [ destruct (select_option b (page w) parent v) as [p2|e] eqn:Es;
         cbn [page trace] | ] | ] | ]);
  eexists _, _; rewrite <- !app_assoc;
  (split; [reflexivity|]);
  (split;
   [ rewrite !in_app_iff; cbn [In]; intuition discriminate
   | intros html' v' parent' p2' H1 H2 H3 H4;
     rewrite !in_app_iff; cbn [In];
     repeat split; try congruence; auto 10 ]).
Qed.


Lemma selected_message_names_value (v : option string) :
  Text.str_in (Text.fstr v) (selected_message v) = true.
Proof.
  unfold selected_message. rewrite <- TextFacts.append_assoc.
  apply TextFacts.str_in_app.
Qed.

Lemma option_branch (selector : string) (wait : Z) (w : World (Page b))
  (element : Node) :
  resolution b selector (page w) = Ok (Some element) ->
  evaluate_tagName b (page w) element = Ok "option" ->
  exists p' calls,
    do_click b selector wait w =
      (Ok match try_result b selector (page w) with
          | Ok outcome => outcome
          | Raise e => failure selector e
          end,
       mkWorld p' (trace w ++ calls)) /\
    ~ In EvaluateClickScript calls /\
    (forall html v parent p2,
        get_element_outer_html b (page w) element "option" = Ok html ->
        get_attribute b (page w) element "value" = Ok v ->
        evaluate_handle_parentNode b (page w) element = Ok parent ->
        select_option b (page w) parent v = Ok p2 ->
        p' = p2 /\ In GetAttribute calls /\
        In EvaluateHandleParentNode calls /\ In SelectOption calls).
Proof.
  intros Hr Ht.
  unfold do_click, bind, try_except, call, ret.
  destruct (0 <? wait)%Z.
  - destruct (option_branch_body selector
                (mkWorld (page w) (trace w ++ [Sleep wait])) element Hr Ht)
      as (p' & calls & E & Hno & Hsel).
    rewrite E. cbn [page trace] in *.
    exists p', (Sleep wait :: calls).
    split; [|split].
    + destruct (try_result b selector (page w));
        rewrite <- !app_assoc; reflexivity.
    + cbn [In]. intros [H|H]; [discriminate H | exact (Hno H)].
    + intros html v parent p2 H1 H2 H3 H4.
      destruct (Hsel html v parent p2 H1 H2 H3 H4) as (? & ? & ? & ?).
      cbn [In]. auto 10.
  - destruct (option_branch_body selector w element Hr Ht)
      as (p' & calls & E & Hno & Hsel).
    rewrite E. exists p', calls.
    split; [|split; [exact Hno | exact Hsel]].
    destruct (try_result b selector (page w)); reflexivity.
Qed.

(** C5 (as amended). An element whose tag reads [option] is handled by the
    select path and never by the scripted click. When reading the value,
    finding the parent and selecting on it all return, [do_click] returns
    the selection outcome, whose message contains the value read; when one
    of them raises, it returns the failure outcome instead. *)
Theorem option_is_selected_not_clicked (selector : string) (wait : Z)
  (w : World (Page b)) (element : Node) :
  resolution b selector (page w) = Ok (Some element) ->
  evaluate_tagName b (page w) element = Ok "option" ->
  ~ In EvaluateClickScript (calls_of b (do_click b selector wait) w) /\
  (forall html v parent p2,
      get_element_outer_html b (page w) element "option" = Ok html ->
      get_attribute b (page w) element "value" = Ok v ->
      evaluate_handle_parentNode b (page w) element = Ok parent ->
      select_option b (page w) parent v = Ok p2 ->
      fst (do_click b selector wait w) =
        Ok (mkOutcome (Some (selected_message v))
                      (selected_message v ++
                       ". The select element's outer HTML is: " ++
                       html ++ ".")) /\
      page (snd (do_click b selector wait w)) = p2 /\
      In GetAttribute (calls_of b (do_click b selector wait) w) /\
      In EvaluateHandleParentNode (calls_of b (do_click b selector wait) w) /\
      In SelectOption (calls_of b (do_click b selector wait) w) /\
      Text.str_in (Text.fstr v) (selected_message v) = true) /\
  (forall e step,
      RaisesAt b selector (page w) e step ->
      fst (do_click b selector wait w) = Ok (failure selector e)).
Proof.
  intros Hr Ht.
  destruct (option_branch selector wait w element Hr Ht)
    as (p' & calls & E & Hno & Hsel).
  unfold calls_of. rewrite E. cbn [fst snd page trace].
  rewrite skipn_app_exact.
  split; [exact Hno|]. split.
  - intros html v parent p2 H1 H2 H3 H4.
    destruct (Hsel html v parent p2 H1 H2 H3 H4) as (-> & Ha & Hp & Hs).
    repeat split; auto using selected_message_names_value.
    unfold try_result. rewrite Hr, Ht, H1. cbn [String.eqb Ascii.eqb Bool.eqb].
    now rewrite H2, H3, H4.
  - intros e step H. now rewrite (raises_at_try_result _ _ _ _ H).
Qed.

(** C4 (as amended). [do_click] always returns an outcome; an exception
    raised by the resolution, the tag or markup inspection or the select
    handling reaches the top-level handler and gives the failure outcome
    with the error text appended; an exception raised by the scroll or by
    the visibility wait is dropped where it is raised and changes nothing. *)
Theorem do_click_catches (selector : string) (wait : Z)
  (w : World (Page b)) :
  (exists outcome w', do_click b selector wait w = (Ok outcome, w')) /\
  (forall e step,
      RaisesAt b selector (page w) e step ->
      fst (do_click b selector wait w) = Ok (failure selector e) /\
      detailed_message (failure selector e) =
        unable_message selector ++ ". Error: " ++ exn_text e) /\
  (forall element tag html message,
      resolution b selector (page w) = Ok (Some element) ->
      evaluate_tagName b (page w) element = Ok tag ->
      tag <> "option" ->
      get_element_outer_html b (page w) element tag = Ok html ->
      fst (click_script b selector (page w)) = Val message ->
      fst (do_click b selector wait w) =
        Ok (mkOutcome (Some message)
                      (message ++ " The clicked element's outer HTML is: " ++
                       html ++ "."))).
Proof.
  split; [|split].
  - destruct (do_click_eq selector wait w) as (p' & calls & E).
    rewrite E. eauto.
  - intros e step H. split; [|reflexivity].
    now rewrite do_click_result, (raises_at_try_result _ _ _ _ H).
  - intros element tag html message Hr Ht Hno Hm Hs.
    rewrite do_click_result. unfold try_result, script_message.
    rewrite Hr, Ht, Hm, Hs.
    apply String.eqb_neq in Hno. now rewrite Hno.
Qed.


Lemma deliver_last (before : option string) (earlier : list string)
  (last : string) :
  deliver before (earlier ++ [last]) = Some last.
Proof. unfold deliver. now rewrite fold_left_app. Qed.

Lemma changes_message_names_changes (selector : string)
  (summary : option string) (changes : string) :
  Text.str_in changes (changes_message selector summary changes) = true.
Proof.
  unfold changes_message. do 5 apply TextFacts.str_in_skip. apply TextFacts.str_in_here.
Qed.

Lemma changes_message_not_yet (selector : string)
  (summary : option string) (changes : string) :
  Text.str_in "is not yet executed and needs further interaction"
    (changes_message selector summary changes) = true.
Proof.
  unfold changes_message.
  change (" is not yet executed and needs further interaction. Get all_fields DOM to complete the interaction.")
    with (" " ++ "is not yet executed and needs further interaction" ++
          ". Get all_fields DOM to complete the interaction.").
  do 9 apply TextFacts.str_in_skip. apply TextFacts.str_in_here.
Qed.

(** What [click] returns on an open page, and that it subscribed. *)
Lemma click_on_open_page (selector : string) (wait : Z)
  (during_click during_settle : list string) (p : Page b) :
  let captured := deliver (deliver None during_click) during_settle in
  let outcome := outcome_on b selector p in
  exists p' calls,
    click b selector wait during_click during_settle (Some p) =
      (Ok (if Text.truthy captured
           then changes_message selector (summary_message outcome)
                  (Text.fstr captured)
           else detailed_message outcome),
       Some p',
       ([AddEvent "click"; GetCurrentPage; TakeScreenshots "click_start";
         HighlightElement selector; Subscribe] ++ calls)%list).
Proof.
  intros captured outcome.
  unfold click, click_on_page, bind, call, ret. cbn [page trace].
  destruct (do_click_eq selector wait
              (mkWorld p ((([AddEvent "click"; GetCurrentPage] ++
                            [TakeScreenshots "click_start"]) ++
                           [HighlightElement selector]) ++ [Subscribe])%list))
    as (p' & calls & E).
  rewrite E. cbn [page trace].
  fold (outcome_on b selector p). fold outcome. fold captured.
  destruct (Text.truthy captured);
    eexists p', _; cbn [page trace]; rewrite <- !app_assoc; reflexivity.
Qed.


(** C3 (as amended). On an open page, what decides the returned string is
    the last notification delivered while the listener is registered. When
    it carries a non-empty description [last] -- in particular when it
    arrives in the settle window -- the string says that the action is not
    yet executed and contains [last]. When none is delivered, or the last
    one is empty, the string is the detailed message of [do_click]. *)
Theorem click_reports_changes (selector : string) (wait : Z) (p : Page b)
  (during_click earlier : list string) (last : string) :
  last <> EmptyString ->
  exists outcome,
    (forall calls, fst (do_click b selector wait (mkWorld p calls)) = Ok outcome) /\
    let said := changes_message selector (summary_message outcome) last in
    fst (fst (click b selector wait during_click (earlier ++ [last]) (Some p)))
      = Ok said /\
    fst (fst (click b selector wait (earlier ++ [last]) [] (Some p)))
      = Ok said /\
    Text.str_in last said = true /\
    Text.str_in "is not yet executed and needs further interaction" said = true /\
    fst (fst (click b selector wait [] [] (Some p)))
      = Ok (detailed_message outcome) /\
    fst (fst (click b selector wait during_click (earlier ++ [EmptyString])
                (Some p)))
      = Ok (detailed_message outcome).
Proof.
  intros Hlast. exists (outcome_on b selector p).
  split; [intros calls; apply do_click_result|].
  cbv zeta.
  repeat split.
  - destruct (click_on_open_page selector wait during_click (earlier ++ [last]) p)
      as (p' & calls & ->).
    cbn [fst]. rewrite deliver_last, TextFacts.truthy_nonempty by exact Hlast.
    reflexivity.
  - destruct (click_on_open_page selector wait (earlier ++ [last]) [] p)
      as (p' & calls & ->).
    cbn [fst deliver fold_left]. fold (deliver None (earlier ++ [last])).
    rewrite deliver_last, TextFacts.truthy_nonempty by exact Hlast.
    reflexivity.
  - apply changes_message_names_changes.
  - apply changes_message_not_yet.
  - destruct (click_on_open_page selector wait [] [] p) as (p' & calls & ->).
    reflexivity.
  - destruct (click_on_open_page selector wait during_click
                (earlier ++ [EmptyString]) p) as (p' & calls & ->).
    cbn [fst]. rewrite deliver_last. reflexivity.
Qed.

(** C9. With no current page, [click] raises [ValueError] and returns no
    string; by then it has recorded the telemetry event and asked for the
    page, and nothing else: no subscription, no resolution, no interaction.
    On an open page it does subscribe. *)
Theorem click_without_page (selector : string) (wait : Z)
  (during_click during_settle : list string) :
  click b selector wait during_click during_settle None =
    (Raise (mkExn ValueError no_page_text), None,
     [AddEvent "click"; GetCurrentPage]) /\
  (forall c,
      In c (snd (click b selector wait during_click during_settle None)) ->
      c = AddEvent "click" \/ c = GetCurrentPage) /\
  (forall p,
      In Subscribe
         (snd (click b selector wait during_click during_settle (Some p)))).
Proof.
  split; [reflexivity|]. split.
  - cbn [click snd In]. intuition.
  - intros p.
    destruct (click_on_open_page selector wait during_click during_settle p)
      as (p' & calls & ->).
    cbn [snd]. apply in_or_app. left. cbn [In]. auto 10.
Qed.


Lemma lookup_assign_other (name key value : string)
  (attrs : list (string * string)) :
  String.eqb name key = false ->
  lookup_attr key (assign_attr name value attrs) = lookup_attr key attrs.
Proof.
  intros Hne. induction attrs as [|[k v] attrs IH]; cbn [assign_attr lookup_attr].
  - now rewrite Hne.
  - destruct (String.eqb k name) eqn:Ek; cbn [lookup_attr].
    + apply String.eqb_eq in Ek. subst k. now rewrite Hne.
    + now rewrite IH.
Qed.

Lemma aria_expanded_after_retarget (element : Node) :
  getAttribute (open_in_same_tab element) "aria-expanded" =
  getAttribute element "aria-expanded".
Proof.
  unfold open_in_same_tab.
  destruct (String.eqb (Text.toLowerCase (tagName element)) "a"); [|reflexivity].
  destruct element as [t a x kids shadow content].
  unfold getAttribute. cbn [setAttribute attributes].
  now apply lookup_assign_other.
Qed.

Lemma menu_notice_says_menu (selector : string) :
  Text.str_in "a menu has appeared where you may need to make further selection"
    (executed_message selector ++ menu_notice) = true /\
  Text.str_in "Get all_fields DOM to complete the action"
    (executed_message selector ++ menu_notice) = true.
Proof.
  unfold menu_notice. split; apply TextFacts.str_in_skip.
  - change (Text.str_in "a menu has appeared where you may need to make further selection"
             (". Very important: As a consequence, " ++
              "a menu has appeared where you may need to make further selection" ++
              ". Very important: Get all_fields DOM to complete the action.") = true).
    apply TextFacts.str_in_skip, TextFacts.str_in_here.
  - change (Text.str_in "Get all_fields DOM to complete the action"
             (". Very important: As a consequence, a menu has appeared where you may need to make further selection. Very important: " ++
              "Get all_fields DOM to complete the action" ++ ".") = true).
    apply TextFacts.str_in_skip, TextFacts.str_in_here.
Qed.

(** C6. In the scripted click of an element that is not an option: when
    [aria-expanded] reads false before the click and true after it, the
    string [perform_javascript_click] returns carries the notice that a
    menu has appeared and that the DOM must be fetched to go on; in every
    other case it is the plain executed-click message. *)
Theorem click_flags_opened_menu (selector : string) (w : World (Page b))
  (m : Node -> bool) (element : Node) :
  css b selector = Some m ->
  findElementInShadowDOMAndIframes m (document b (page w)) = Val (Some element) ->
  Text.toLowerCase (tagName element) <> "option" ->
  let before := getAttribute element "aria-expanded" in
  let after :=
    getAttribute (snd (dispatch_click b (page w) (open_in_same_tab element)))
                 "aria-expanded" in
  let plain := executed_message selector in
  (before = Some "false" -> after = Some "true" ->
   fst (perform_javascript_click b selector w) = Ok (Some (plain ++ menu_notice)) /\
   Text.str_in "a menu has appeared where you may need to make further selection"
     (plain ++ menu_notice) = true /\
   Text.str_in "Get all_fields DOM to complete the action"
     (plain ++ menu_notice) = true) /\
  (~ (before = Some "false" /\ after = Some "true") ->
   fst (perform_javascript_click b selector w) = Ok (Some plain)).
Proof.
  intros Hcss Hfind Htag before after plain.
  assert (E : fst (perform_javascript_click b selector w) =
              Ok (Some (if is_false_then_true before after
                        then plain ++ menu_notice else plain))).
  { rewrite perform_javascript_click_eq. cbn [fst].
    unfold script_message, click_script, find_by_selector.
    rewrite Hcss, Hfind.
    apply String.eqb_neq in Htag. rewrite Htag.
    rewrite aria_expanded_after_retarget. fold before.
    subst after.
    destruct (dispatch_click b (page w) (open_in_same_tab element)) as [p' element'].
    cbn [snd]. destruct (is_false_then_true before _); reflexivity. }
  split.
  - intros Hb Ha. rewrite E, Hb, Ha.
    split; [reflexivity | apply menu_notice_says_menu].
  - intros Hnot. rewrite E.
    destruct before as [x|], after as [y|]; cbn [is_false_then_true]; try reflexivity.
    destruct (String.eqb x "false") eqn:Ex; [|reflexivity].
    destruct (String.eqb y "true") eqn:Ey; [|reflexivity].
    apply String.eqb_eq in Ex, Ey. subst. exfalso. now apply Hnot.
Qed.

(** C8. [is_element_present] leaves the page as it found it, and a second
    call made right after the first gives the same answer: the same boolean,
    or the same exception. *)
Theorem is_element_present_repeatable (selector : string)
  (w : World (Page b)) :
  page (snd (is_element_present b selector w)) = page w /\
  fst (is_element_present b selector (snd (is_element_present b selector w))) =
  fst (is_element_present b selector w).
Proof.
  unfold is_element_present, bind, ask, ret. cbn [page trace].
  destruct (query_selector b (page w) (document b (page w)) selector)
    as [[element|]|e] eqn:E; cbn [fst snd page trace]; rewrite E;
    split; reflexivity.
Qed.






(** The presence script answers true exactly when some matching element
    is reachable from the document. *)
Lemma presence_script_true_iff (selector : string) (p : Page b)
  (m : Node -> bool) :
  css b selector = Some m ->
  presence_script b selector p = Val true <->
  exists n, Reaches (document b p) n /\ m n = true.
Proof.
  intros Hcss. unfold presence_script, find_by_selector. rewrite Hcss. split.
  - destruct (findElementInShadowDOMAndIframes m (document b p))
      as [[found|]|e] eqn:E; try discriminate.
    intros _. exists found. apply DomFacts.find_sound in E. tauto.
  - intros (n & Hr & Hm).
    destruct (DomFacts.find_complete m _ n Hr Hm) as [found ->]. reflexivity.
Qed.

Lemma find_by_selector_throws (selector : string) (parent : Root) (e : JsError) :
  find_by_selector b selector parent = Throw e -> e = SyntaxError.
Proof.
  unfold find_by_selector. destruct (css b selector) as [m|].
  - destruct (DomFacts.find_returns m parent) as [r ->]. discriminate.
  - now intros [= <-].
Qed.

Lemma for_of_all_none {A : Type} (body : A -> JsRes (option Node))
  (l : list A) :
  Forall (fun x => body x = Val None) l -> for_of body l = Val None.
Proof.
  induction 1 as [|x l Hx _ IH]; cbn [for_of]; [reflexivity | now rewrite Hx].
Qed.

Lemma blocked_frame_step (m : Node -> bool) (el : Node) (doc : Root)
  (rest : list Node) :
  is_iframe el = true ->
  frame el = CrossOrigin doc ->
  for_of (loop_body m) (el :: rest) =
    match
      match shadowRoot el with
      | Some sr => findElementInShadowDOMAndIframes m sr
      | None => Val None
      end
    with
    | Val (Some found) => Val (Some found)
    | Val None => for_of (loop_body m) rest
    | Throw e => Throw e
    end.
Proof.
  intros Hif Hframe. cbn [for_of]. unfold loop_body, contentDocument.
  rewrite Hif, Hframe.
  destruct (match shadowRoot el with
            | Some sr => findElementInShadowDOMAndIframes m sr
            | None => Val None
            end) as [[found|]|e]; reflexivity.
Qed.

(** C7. In the search shared by [is_element_present] and
    [perform_javascript_click], reaching into a cross-origin [iframe] does
    throw, and the loop catches it: that element contributes only what its
    shadow root holds, and the loop goes on with the elements after it --
    in the loop taken alone, and in the helper as the scripts call it on a
    root where the frame is met. The helper is that query followed by that
    loop; it returns for every root; it finds a match whenever one can be
    reached through light trees, exposed shadow roots and same-origin
    frames; and what it returns is such a match, never an element of a
    cross-origin document. So neither script throws a security error, and
    [perform_javascript_click] never raises. *)
Theorem cross_origin_frame_is_skipped (selector : string) (p : Page b)
  (m : Node -> bool) (el : Node) (doc : Root) (rest : list Node) :
  is_iframe el = true ->
  frame el = CrossOrigin doc ->
  contentDocument el = Throw SecurityError /\
  for_of (loop_body m) (el :: rest) =
    match
      match shadowRoot el with
      | Some sr => findElementInShadowDOMAndIframes m sr
      | None => Val None
      end
    with
    | Val (Some found) => Val (Some found)
    | Val None => for_of (loop_body m) rest
    | Throw e => Throw e
    end /\
  (forall parent, exists r, findElementInShadowDOMAndIframes m parent = Val r) /\
  (forall parent found,
      findElementInShadowDOMAndIframes m parent = Val (Some found) ->
      m found = true /\ Reaches parent found) /\
  presence_script b selector p <> Throw SecurityError /\
  fst (click_script b selector p) <> Throw SecurityError /\
  (forall w, exists r w', perform_javascript_click b selector w = (Ok r, w')) /\
  (forall parent,
      findElementInShadowDOMAndIframes m parent =
        match querySelector m parent with
        | Some element => Val (Some element)
        | None => for_of (loop_body m) (querySelectorAll_star parent)
        end) /\
  (forall parent n,
      Reaches parent n -> m n = true ->
      exists found, findElementInShadowDOMAndIframes m parent = Val (Some found)) /\
  (forall parent before,
      querySelectorAll_star parent = (before ++ el :: rest)%list ->
      querySelector m parent = None ->
      Forall (fun x => loop_body m x = Val None) before ->
      findElementInShadowDOMAndIframes m parent =
        match
          match shadowRoot el with
          | Some sr => findElementInShadowDOMAndIframes m sr
          | None => Val None
          end
        with
        | Val (Some found) => Val (Some found)
        | Val None => for_of (loop_body m) rest
        | Throw e => Throw e
        end).
Proof.
  intros Hif Hframe.
  assert (Hc : contentDocument el = Throw SecurityError).
  { unfold contentDocument. now rewrite Hframe. }
  split; [exact Hc|].
  split; [now apply blocked_frame_step with (doc := doc)|].
  split; [intros parent; apply DomFacts.find_returns|].
  split; [intros parent found; apply DomFacts.find_sound|].
  split.
  { unfold presence_script.
    destruct (find_by_selector b selector (document b p)) as [[found|]|e] eqn:E;
      try discriminate.
    apply find_by_selector_throws in E. subst e. discriminate. }
  split.
  { unfold click_script.
    destruct (find_by_selector b selector (document b p)) as [[found|]|e] eqn:E.
    - destruct (String.eqb _ "option").
      + destruct (parentElement b p found); cbn [fst]; discriminate.
      + destruct (dispatch_click b p (open_in_same_tab found)) as [p' el'].
        destruct (is_false_then_true _ _); cbn [fst]; discriminate.
    - cbn [fst]. discriminate.
    - apply find_by_selector_throws in E. subst e. cbn [fst]. discriminate. }
  split; [intros w; rewrite perform_javascript_click_eq; eauto|].
  split; [intros parent; apply DomFacts.find_unfold|].
  split; [intros parent n; apply DomFacts.find_complete|].
  intros parent before Hall Hq Hbefore.
  rewrite DomFacts.find_unfold, Hq, Hall, DomFacts.for_of_app.
  rewrite (for_of_all_none _ _ Hbefore).
  now apply blocked_frame_step with (doc := doc).
Qed.

End WithBrowser.
End SkillFacts.

(** ** The telemetry collector *)

Module TelemetryFacts.

Import Telemetry.

(** The bucket an enabled [add_event] leaves under the key of its type. *)
Lemma add_event_bucket (now : string) (t : EventType) (d : EventData)
  (c : Collector) :
  buckets (add_event true now t d c) !! value t =
    Some (match buckets c !! value t with
          | Some bk => mkBucket (events bk ++ [mkEvent now d]) (event_count bk + 1)
          | None => mkBucket [mkEvent now d] 1
          end).
Proof.
  unfold add_event. cbn [negb with_buckets buckets].
  destruct (buckets c !! value t) as [bk|] eqn:E.
  - rewrite !lookup_alter_eq, E. reflexivity.
  - rewrite !lookup_alter_eq, lookup_insert_eq. reflexivity.
Qed.

Lemma add_event_other (now : string) (t : EventType) (d : EventData)
  (c : Collector) (key : string) :
  key <> value t ->
  buckets (add_event true now t d c) !! key = buckets c !! key.
Proof.
  intros Hne. unfold add_event. cbn [negb with_buckets buckets].
  rewrite !lookup_alter_ne by congruence.
  destruct (buckets c !! value t); [reflexivity|].
  now rewrite lookup_insert_ne by congruence.
Qed.

Lemma add_event_keeps_counts (enabled : bool) (now : string) (t : EventType)
  (d : EventData) (c : Collector) :
  counts_agree c -> counts_agree (add_event enabled now t d c).
Proof.
  intros Hc. destruct enabled; [|exact Hc].
  intros key bk. destruct (decide (key = value t)) as [->|Hne].
  - rewrite add_event_bucket.
    destruct (buckets c !! value t) as [old|] eqn:E; intros [= <-];
      cbn [events event_count].
    + rewrite (Hc _ _ E), length_app. cbn [length]. lia.
    + reflexivity.
  - rewrite add_event_other by exact Hne. apply Hc.
Qed.

Lemma add_events_keep_counts (enabled : bool)
  (calls : list (string * EventType * EventData)) (c : Collector) :
  counts_agree c -> counts_agree (add_events enabled calls c).
Proof.
  unfold add_events. revert c.
  induction calls as [|[[now t] d] calls IH]; intros c Hc; cbn [fold_left].
  - exact Hc.
  - apply IH. now apply add_event_keeps_counts.
Qed.

(** C10. After any sequence of [add_event] calls on the collector as first
    built, every bucket's [event_count] is the length of its [events]. An
    enabled call leaves, under the key of its event type, the former events
    followed by the new one and the former count plus one (from an empty
    bucket when there was none), and leaves every other bucket alone; a
    disabled call returns the collector unchanged. *)
Theorem add_event_counts_events (id start : string) (enabled : bool)
  (calls : list (string * EventType * EventData))
  (now : string) (t : EventType) (d : EventData) :
  let c := add_events enabled calls (initial id start) in
  counts_agree c /\
  buckets (add_event true now t d c) !! value t =
    Some (mkBucket
            (default [] (events <$> buckets c !! value t) ++ [mkEvent now d])
            (default 0%Z (event_count <$> buckets c !! value t) + 1)) /\
  (forall key, key <> value t ->
     buckets (add_event true now t d c) !! key = buckets c !! key) /\
  installation_id (add_event true now t d c) = installation_id c /\
  start_time (add_event true now t d c) = start_time c /\
  add_event false now t d c = c.
Proof.
  intros c. split; [|split; [|split; [|split; [|split]]]].
  - apply add_events_keep_counts. intros key bk H.
    cbn [initial buckets] in H. now rewrite lookup_empty in H.
  - rewrite add_event_bucket. destruct (buckets c !! value t); reflexivity.
  - intros key Hne. now apply add_event_other.
  - reflexivity.
  - reflexivity.
  - reflexivity.
Qed.

End TelemetryFacts.

(** ** The statements on sample pages *)

Module Samples.

Import Skill Script Fake.




(** C2, on the same page with a selector that matches nothing: no handle,
    hence the failure outcome. *)
Lemma do_click_reports_no_match_witness :
  NoHandle plain "#missing" shadow_page /\
  exists w',
    do_click plain "#missing" 5 (start shadow_page) =
      (Ok (failure "#missing"
             (mkExn ValueError (not_found_text "#missing"))), w').
Proof.
  assert (H : NoHandle plain "#missing" (page (start shadow_page))).
  { split; [reflexivity | vm_compute; repeat constructor]. }
  split; [exact H|].
  exact (proj1 (SkillFacts.do_click_reports_no_match
                  plain "#missing" 5 (start shadow_page) H)).
Defined.

(** C3, the claim as stated fails: a notification delivered in the settle
    window with an empty description leaves the returned string equal to
    the detailed message, without the not-yet-executed notice. *)
Lemma empty_notification_is_ignored :
  fst (do_click plain "#home" 0 (start menu_page)) = Ok home_clicked /\
  fst (fst (click plain "#home" 0 [] [EmptyString] (Some menu_page))) =
    Ok (detailed_message home_clicked) /\
  Text.str_in "is not yet executed"
    (detailed_message home_clicked) = false.
Proof. repeat split; reflexivity. Qed.

(** C3, with a non-empty description delivered in the settle window. *)
Lemma click_reports_changes_witness :
  "New elements detected" <> EmptyString /\
  fst (fst (click plain "#home" 0 ["ignored"] ["first"; "New elements detected"]
              (Some menu_page))) =
    Ok (changes_message "#home" (summary_message home_clicked)
          "New elements detected").
Proof.
  assert (H : "New elements detected" <> EmptyString) by discriminate.
  split; [exact H|].
  destruct (SkillFacts.click_reports_changes plain "#home" 0 menu_page
              ["ignored"] ["first"] "New elements detected" H)
    as (outcome & Hdo & Hsettle & _).
  specialize (Hdo []).
  assert (E : Ok home_clicked = Ok outcome) by (rewrite <- Hdo; reflexivity).
  injection E as E. rewrite E. exact Hsettle.
Defined.

(** C4, the claim as stated fails: the scroll raises, and [do_click]
    returns the outcome of a successful click, not the failure outcome. *)
Lemma scroll_failure_is_not_reported :
  resolution slow_scroll "#home" menu_page = Ok (Some home_link) /\
  scroll_into_view_if_needed slow_scroll menu_page home_link =
    Raise (mkExn PlaywrightError "Timeout 200ms exceeded") /\
  fst (do_click slow_scroll "#home" 0 (start menu_page)) = Ok home_clicked /\
  home_clicked <> failure "#home" (mkExn PlaywrightError "Timeout 200ms exceeded").
Proof. repeat split; try reflexivity. discriminate. Qed.

(** C4, an exception in the tag inspection reaches the handler. *)
Lemma do_click_catches_witness :
  RaisesAt broken_tag "#home" menu_page
    (mkExn PlaywrightError "Execution context was destroyed") TagInspection /\
  fst (do_click broken_tag "#home" 0 (start menu_page)) =
    Ok (failure "#home" (mkExn PlaywrightError "Execution context was destroyed")).
Proof.
  assert (H : RaisesAt broken_tag "#home" (page (start menu_page))
                (mkExn PlaywrightError "Execution context was destroyed")
                TagInspection).
  { apply raises_tag with (element := home_link); reflexivity. }
  split; [exact H|].
  exact (proj1 (proj1 (proj2 (SkillFacts.do_click_catches
                                broken_tag "#home" 0 (start menu_page)))
                  _ _ H)).
Defined.

(** C5, the claim as stated fails: the option inside an option group
    resolves and reads as an option, selecting on its parent (the group)
    raises, and [do_click] returns the failure outcome; so it does for the
    option directly under a select that never becomes ready. *)
Lemma option_in_group_is_not_selected :
  resolution plain "#large" select_page = Ok (Some large_option) /\
  evaluate_tagName plain select_page large_option = Ok "option" /\
  fst (do_click plain "#large" 0 (start select_page)) =
    Ok (failure "#large"
          (mkExn PlaywrightError "Element is not a <select> element")) /\
  resolution stuck_select "#small" select_page = Ok (Some small_option) /\
  evaluate_tagName stuck_select select_page small_option = Ok "option" /\
  fst (do_click stuck_select "#small" 0 (start select_page)) =
    Ok (failure "#small" (mkExn PlaywrightError "Timeout 30000ms exceeded")).
Proof. repeat split; reflexivity. Qed.

(** C5, on the option directly under the select. *)
Lemma option_is_selected_not_clicked_witness :
  resolution plain "#small" select_page = Ok (Some small_option) /\
  evaluate_tagName plain select_page small_option = Ok "option" /\
  ~ In EvaluateClickScript
       (calls_of plain (do_click plain "#small" 0) (start select_page)).
Proof.
  assert (Hr : resolution plain "#small" (page (start select_page)) =
               Ok (Some small_option)) by reflexivity.
  assert (Ht : evaluate_tagName plain (page (start select_page)) small_option =
               Ok "option") by reflexivity.
  split; [exact Hr|]. split; [exact Ht|].
  exact (proj1 (SkillFacts.option_is_selected_not_clicked
                  plain "#small" 0 (start select_page) small_option Hr Ht)).
Defined.

(** C6, on a collapsed menu button that the click opens. *)
Lemma click_flags_opened_menu_witness :
  css plain "#menu" = Some (has_id "menu") /\
  findElementInShadowDOMAndIframes (has_id "menu") menu_page =
    Val (Some menu_button) /\
  Text.toLowerCase (tagName menu_button) <> "option" /\
  fst (perform_javascript_click plain "#menu" (start menu_page)) =
    Ok (Some (executed_message "#menu" ++ menu_notice)).
Proof.
  assert (Hc : css plain "#menu" = Some (has_id "menu")) by reflexivity.
  assert (Hf : findElementInShadowDOMAndIframes (has_id "menu")
                 (document plain (page (start menu_page))) =
               Val (Some menu_button)) by reflexivity.
  assert (Ht : Text.toLowerCase (tagName menu_button) <> "option")
    by discriminate.
  split; [exact Hc|]. split; [exact Hf|]. split; [exact Ht|].
  exact (proj1 (proj1 (SkillFacts.click_flags_opened_menu
                         plain "#menu" (start menu_page) (has_id "menu")
                         menu_button Hc Hf Ht)
                  eq_refl eq_refl)).
Defined.

(** C7, on a page that starts with a cross-origin frame: the loop passes
    it and finds the button of the shadow host that follows; the button
    inside the frame is not found. *)
Lemma cross_origin_frame_is_skipped_witness :
  is_iframe ads_frame = true /\
  frame ads_frame = CrossOrigin [ element "BUTTON" "buy" [] [] ] /\
  for_of (loop_body (has_id "pay")) (querySelectorAll_star framed_page) =
    Val (Some (element "BUTTON" "pay" [] [])) /\
  presence_script plain "#buy" framed_page = Val false /\
  findElementInShadowDOMAndIframes (has_id "pay") framed_page =
    Val (Some (element "BUTTON" "pay" [] [])) /\
  findElementInShadowDOMAndIframes (has_id "ok") framed_page =
    Val (Some (element "BUTTON" "ok" [] [])).
Proof.
  assert (Hi : is_iframe ads_frame = true) by reflexivity.
  assert (Hf : frame ads_frame = CrossOrigin [ element "BUTTON" "buy" [] [] ])
    by reflexivity.
  split; [exact Hi|]. split; [exact Hf|].
  split; [|repeat split; reflexivity].
  change (querySelectorAll_star framed_page)
    with (ads_frame :: tl (querySelectorAll_star framed_page)).
  rewrite (proj1 (proj2 (SkillFacts.cross_origin_frame_is_skipped
                           plain "#pay" framed_page (has_id "pay") ads_frame
                           _ (tl (querySelectorAll_star framed_page)) Hi Hf))).
  reflexivity.
Defined.

End Samples.

(* ===================================================================== *)
(** * Further facts *)

(** ** More on the skill *)

Module SkillMore.

Import Skill Script Protocol.

Section WithBrowser.

Variable b : Browser.

Lemma first_answer_bounds (answers : list (Res (option Node))) :
  snd (first_answer answers) <= length answers /\
  (answers <> [] -> 1 <= snd (first_answer answers)).
Proof.
  induction answers as [|[[h|]|e] rest [IH _]]; cbn [first_answer length].
  - cbn [snd]. split; [lia | congruence].
  - cbn [snd]. split; lia.
  - destruct (first_answer rest) as [answer asked]. cbn [snd] in *. split; lia.
  - cbn [snd]. split; lia.
Qed.

Lemma query_frames_answer (selector : string) (fs : list Root) :
  forall w : World (Page b),
    query_frames b selector fs w =
      (fst (first_answer
              (map (fun root => query_selector b (page w) root selector) fs)),
       mkWorld (page w)
         (trace w ++
          repeat QuerySelector
            (snd (first_answer
                    (map (fun root => query_selector b (page w) root selector)
                         fs))))).
Proof.
  induction fs as [|frame rest IH]; intros w.
  - cbn. rewrite app_nil_r. now destruct w.
  - cbn [query_frames map first_answer]. unfold bind, ask, ret. cbn [page trace].
    destruct (query_selector b (page w) frame selector) as [[element|]|e].
    + reflexivity.
    + rewrite IH. cbn [page trace].
      destruct (first_answer _) as [answer asked]. cbn [fst snd repeat].
      now rewrite <- app_assoc.
    + reflexivity.
Qed.

(** What the resolution returns and the queries it makes. *)
Lemma find_element_answer (selector : string)
  (w : World (Page b)) :
  let answers := answers_on b selector (page w) in
  find_element_within_iframes b selector w =
    (fst (first_answer answers),
     mkWorld (page w)
             (trace w ++ repeat QuerySelector (snd (first_answer answers)))) /\
  1 <= snd (first_answer answers) <= 1 + length (frames b (page w)).
Proof.
  intros answers. split.
  - subst answers. unfold answers_on, find_element_within_iframes, bind, ask, ret.
    cbn [page trace map first_answer].
    destruct (query_selector b (page w) (document b (page w)) selector)
      as [[element|]|e]; try reflexivity.
    rewrite query_frames_answer. cbn [page trace].
    destruct (first_answer _) as [answer asked]. cbn [fst snd repeat].
    now rewrite <- app_assoc.
  - destruct (first_answer_bounds answers) as [Hle Hge].
    subst answers. unfold answers_on in *. cbn [map length] in *.
    rewrite length_map in Hle.
    split; [apply Hge; discriminate | exact Hle].
Qed.

(** X1. The resolution of [do_click] asks the main document, then the
    frames in the order of [page.frames], and stops at the first query that
    gives a handle or raises: that is its result, and the later frames are
    not asked. *)
Theorem resolution_stops_at_first_answer (selector : string)
  (w : World (Page b)) :
  let answers := answers_on b selector (page w) in
  find_element_within_iframes b selector w =
    (fst (first_answer answers),
     mkWorld (page w)
             (trace w ++ repeat QuerySelector (snd (first_answer answers)))) /\
  1 <= snd (first_answer answers) <= 1 + length (frames b (page w)).
Proof. apply find_element_answer. Qed.


Lemma resolution_answer (selector : string) (p : Page b) :
  resolution b selector p = fst (first_answer (answers_on b selector p)).
Proof.
  unfold resolution.
  destruct (find_element_answer selector (mkWorld p [])) as [E _].
  cbn [page] in E. now rewrite E.
Qed.

Lemma do_click_body_protocol (selector : string) (w : World (Page b)) :
  exists p' tail,
    do_click_body b selector w =
      (try_result b selector (page w),
       mkWorld p'
         (trace w ++
          repeat QuerySelector
            (snd (first_answer (answers_on b selector (page w)))) ++ tail)) /\
    In tail do_click_tails /\
    (~ In SelectOption tail -> ~ In EvaluateClickScript tail -> p' = page w).
Proof.
  unfold do_click_body, try_result.
  destruct (find_element_answer selector w) as [E _].
  unfold bind at 1. rewrite E, resolution_answer.
  set (n := snd (first_answer (answers_on b selector (page w)))).
  destruct (fst (first_answer (answers_on b selector (page w))))
    as [[element|]|e].
  2: { exists (page w), []. rewrite app_nil_r.
       split; [reflexivity|]. split; [cbn; auto | reflexivity]. }
  2: { exists (page w), []. rewrite app_nil_r.
       split; [reflexivity|]. split; [cbn; auto | reflexivity]. }
  unfold bind, try_except, ask, ret, raise. cbn [page trace].
  destruct (scroll_into_view_if_needed b (page w) element) as [u1|e1];
    cbn [page trace];
  destruct (wait_for_element_state b (page w) element) as [u2|e2];
    cbn [page trace];
  (destruct (evaluate_tagName b (page w) element) as [tag|e]; cbn [page trace];
   [ destruct (get_element_outer_html b (page w) element tag) as [html|e];
     cbn [page trace];
     [ destruct (String.eqb tag "option"); cbn [page trace];
       [ destruct (get_attribute b (page w) element "value") as [v|e];
         cbn [page trace];
         [ destruct (evaluate_handle_parentNode b (page w) element)
             as [parent|e]; cbn [page trace];
           [ destruct (select_option b (page w) parent v) as [p2|e];
             cbn [page trace] | ] | ]
       | rewrite (SkillFacts.perform_javascript_click_eq b); cbn [page trace] ] | ] | ]);
  eexists _, _; rewrite <- !app_assoc;
  (split; [reflexivity|]);
  (split; [cbn; auto 10|]);
  intros Hs Hc; try reflexivity; exfalso;
  first [ apply Hs; cbn; now auto 10 | apply Hc; cbn; now auto 10 ].
Qed.


Lemma skipn_exact {A : Type} (l extra : list A) :
  skipn (length l) (l ++ extra) = extra.
Proof. induction l as [|x l IH]; [reflexivity | exact IH]. Qed.

(** The calls of a run of [do_click], in order. *)
Lemma do_click_calls_shape (selector : string) (wait : Z)
  (w : World (Page b)) :
  let asked := snd (first_answer (answers_on b selector (page w))) in
  exists tail,
    calls_of b (do_click b selector wait) w =
      ((if (0 <? wait)%Z then [Sleep wait] else []) ++
       repeat QuerySelector asked ++ tail)%list /\
    1 <= asked <= 1 + length (frames b (page w)) /\
    In tail do_click_tails /\
    (~ In SelectOption tail -> ~ In EvaluateClickScript tail ->
     page (snd (do_click b selector wait w)) = page w).
Proof.
  intros asked.
  assert (Hb : 1 <= asked <= 1 + length (frames b (page w))).
  { apply (find_element_answer selector w). }
  unfold calls_of, do_click, bind, try_except, call, ret.
  destruct (0 <? wait)%Z.
  - destruct (do_click_body_protocol selector
                (mkWorld (page w) (trace w ++ [Sleep wait])))
      as (p' & tail & E & Htail & Hpage).
    cbn [page trace] in *. rewrite E. exists tail.
    destruct (try_result b selector (page w)); cbn [snd page trace];
      rewrite <- !app_assoc, skipn_exact; auto.
  - destruct (do_click_body_protocol selector w)
      as (p' & tail & E & Htail & Hpage).
    rewrite E. exists tail.
    destruct (try_result b selector (page w)); cbn [snd page trace];
      rewrite skipn_exact; auto.
Qed.

(** X2. Every run of [do_click] makes its calls in one fixed order: a sleep
    exactly when the pre-delay is positive, then between one query and one
    per frame plus one, then one of seven tails -- so the click script is
    evaluated at most once, after the markup was read, and never in a run
    that reads the value of an option. *)
Theorem do_click_call_protocol (selector : string) (wait : Z)
  (w : World (Page b)) :
  let asked := snd (first_answer (answers_on b selector (page w))) in
  exists tail,
    calls_of b (do_click b selector wait) w =
      ((if (0 <? wait)%Z then [Sleep wait] else []) ++
       repeat QuerySelector asked ++ tail)%list /\
    1 <= asked <= 1 + length (frames b (page w)) /\
    In tail do_click_tails.
Proof.
  intros asked.
  destruct (do_click_calls_shape selector wait w) as (tail & E & Hb & Ht & _).
  exists tail. auto.
Qed.







(** The run of [do_click] that reaches the click script. *)
Lemma scripted_branch (selector : string) (wait : Z) (w : World (Page b))
  (element : Node) (tag html : string) :
  resolution b selector (page w) = Ok (Some element) ->
  evaluate_tagName b (page w) element = Ok tag ->
  tag <> "option" ->
  get_element_outer_html b (page w) element tag = Ok html ->
  fst (do_click b selector wait w) =
    Ok (mkOutcome (script_message b selector (page w))
                  (Text.fstr (script_message b selector (page w)) ++
                   " The clicked element's outer HTML is: " ++ html ++ ".")) /\
  page (snd (do_click b selector wait w)) =
    snd (click_script b selector (page w)).
Proof.
  intros Hr Ht Hno Hm. apply String.eqb_neq in Hno. split.
  - rewrite SkillFacts.do_click_result. unfold try_result.
    now rewrite Hr, Ht, Hm, Hno.
  - assert (Hbody : forall w0 : World (Page b), page w0 = page w ->
              page (snd (do_click_body b selector w0)) =
              snd (click_script b selector (page w))).
    { intros [p0 tr0] Hw0. cbn [page] in Hw0. subst p0. unfold do_click_body.
      destruct (find_element_answer selector
                  (mkWorld (page w) tr0)) as [E _].
      unfold bind at 1. rewrite E, <- resolution_answer. cbn [page]. rewrite Hr.
      unfold bind, try_except, ask, ret. cbn [page trace].
      destruct (scroll_into_view_if_needed b (page w) element);
        cbn [page trace];
        destruct (wait_for_element_state b (page w) element);
        cbn [page trace]; rewrite Ht; cbn [page trace];
        rewrite Hm, Hno;
        rewrite (SkillFacts.perform_javascript_click_eq b);
        reflexivity. }
    unfold do_click, bind, try_except, call, ret.
    destruct (0 <? wait)%Z.
    + specialize (Hbody (mkWorld (page w) (trace w ++ [Sleep wait])) eq_refl).
      destruct (do_click_body b selector _) as [[o|e] w1]; exact Hbody.
    + specialize (Hbody w eq_refl).
      destruct (do_click_body b selector w) as [[o|e] w1]; exact Hbody.
Qed.

(** X4. A handle was resolved, but the click script does not find the
    element (it is gone, or it lives where the script cannot look, such as
    a cross-origin frame): [do_click] returns the script's not-found string
    as an ordinary outcome with the markup appended, not the
    invalid-selector failure. *)
Theorem script_miss_is_reported (selector : string) (wait : Z)
  (w : World (Page b)) (element : Node) (tag html : string) :
  resolution b selector (page w) = Ok (Some element) ->
  evaluate_tagName b (page w) element = Ok tag ->
  tag <> "option" ->
  get_element_outer_html b (page w) element tag = Ok html ->
  find_by_selector b selector (document b (page w)) = Val None ->
  fst (do_click b selector wait w) =
    Ok (mkOutcome
          (Some (not_found_message selector))
          (not_found_message selector ++
           " The clicked element's outer HTML is: " ++ html ++ ".")) /\
  (forall e, summary_message (failure selector e) <>
             Some (not_found_message selector)).
Proof.
  intros Hr Ht Hno Hm Hfind.
  destruct (scripted_branch selector wait w element tag html Hr Ht Hno Hm)
    as [Ho _].
  assert (Hs : click_script b selector (page w) =
               (Val (not_found_message selector), page w)).
  { unfold click_script. now rewrite Hfind. }
  rewrite Ho. unfold script_message. rewrite Hs. cbn [fst snd Text.fstr].
  split; [reflexivity|].
  intros e. cbn [failure summary_message]. intros [= H].
Qed.

Lemma click_script_throw_keeps_page (selector : string) (p : Page b)
  (e : JsError) :
  fst (click_script b selector p) = Throw e ->
  snd (click_script b selector p) = p.
Proof.
  unfold click_script.
  destruct (find_by_selector b selector (document b p)) as [[found|]|e'];
    try reflexivity.
  destruct (String.eqb _ "option").
  - destruct (parentElement b p found); [discriminate | reflexivity].
  - destruct (dispatch_click b p (open_in_same_tab found)) as [p' el'].
    destruct (is_false_then_true _ _); discriminate.
Qed.

(** X5. When evaluating the click script raises -- the selector is not
    CSS, or the option found has no parent element -- the exception stops
    in [perform_javascript_click], which returns [None] and leaves the page
    alone. [do_click] then returns an outcome with no summary whose detail
    begins with the word None, and not the failure outcome. *)
Theorem script_error_gives_none (selector : string) (wait : Z)
  (w : World (Page b)) (e : JsError) :
  fst (click_script b selector (page w)) = Throw e ->
  perform_javascript_click b selector w =
    (Ok None, mkWorld (page w) (trace w ++ [EvaluateClickScript])) /\
  (forall element tag html,
      resolution b selector (page w) = Ok (Some element) ->
      evaluate_tagName b (page w) element = Ok tag ->
      tag <> "option" ->
      get_element_outer_html b (page w) element tag = Ok html ->
      fst (do_click b selector wait w) =
        Ok (mkOutcome None
              ("None The clicked element's outer HTML is: " ++ html ++ ".")) /\
      page (snd (do_click b selector wait w)) = page w).
Proof.
  intros Hthrow.
  pose proof (click_script_throw_keeps_page selector (page w) e Hthrow) as Hp.
  split.
  - rewrite (SkillFacts.perform_javascript_click_eq b). unfold script_message.
    now rewrite Hthrow, Hp.
  - intros element tag html Hr Ht Hno Hm.
    destruct (scripted_branch selector wait w element tag html Hr Ht Hno Hm)
      as [Ho Hq].
    rewrite Ho, Hq, Hp. unfold script_message. rewrite Hthrow.
    split; reflexivity.
Qed.

Lemma no_handle_outcome (selector : string) (p : Page b) :
  NoHandle b selector p ->
  outcome_on b selector p =
    failure selector (mkExn ValueError (not_found_text selector)).
Proof.
  intros H. unfold outcome_on, try_result.
  now rewrite (SkillFacts.no_handle_resolution b _ _ H).
Qed.

(** X6. The notice of new elements is built from the summary whatever the
    outcome was: when no handle is found and a non-empty notification is
    the last one delivered, [click] returns a string that opens with
    Success: followed by the unable-to-click message. *)
Theorem failed_click_with_changes_reads_success (selector : string)
  (wait : Z) (p : Page b) (during_click earlier : list string)
  (last : string) :
  NoHandle b selector p ->
  last <> EmptyString ->
  fst (fst (click b selector wait during_click (earlier ++ [last]) (Some p))) =
    Ok (changes_message selector (Some (unable_message selector)) last) /\
  Text.starts_with "Success: Unable to click element with selector: "
    (changes_message selector (Some (unable_message selector)) last) = true.
Proof.
  intros Hno Hlast. split.
  - destruct (SkillFacts.click_on_open_page b selector wait during_click
                (earlier ++ [last]) p) as (p' & calls & ->).
    cbn [fst]. rewrite SkillFacts.deliver_last.
    rewrite TextFacts.truthy_nonempty by exact Hlast.
    now rewrite (no_handle_outcome _ _ Hno).
  - reflexivity.
Qed.


(** X7. When the page query gives no handle, [is_element_present] answers
    by the script alone: it returns a boolean, and that boolean is true
    exactly when some element matching the selector can be reached from the
    document through light trees, exposed shadow roots and same-origin
    frames. *)
Theorem is_element_present_answer (selector : string) (w : World (Page b))
  (m : Node -> bool) :
  css b selector = Some m ->
  query_selector b (page w) (document b (page w)) selector = Ok None ->
  exists answer,
    is_element_present b selector w =
      (Ok answer,
       mkWorld (page w) (trace w ++ [QuerySelector; EvaluatePresenceScript])) /\
    (answer = true <->
     exists n, Reaches (document b (page w)) n /\ m n = true).
Proof.
  intros Hcss Hq.
  unfold is_element_present, bind, ask, ret. cbn [page trace]. rewrite Hq.
  cbn [page trace]. rewrite <- app_assoc. cbn [app].
  pose proof (SkillFacts.presence_script_true_iff b selector (page w) m Hcss)
    as Hiff.
  unfold presence_script, find_by_selector in *. rewrite Hcss in *.
  destruct (DomFacts.find_returns m (document b (page w))) as [r Er].
  rewrite Er in *. destruct r as [found|].
  - exists true. split; [reflexivity|]. split; [intros _|reflexivity].
    now apply Hiff.
  - exists false. split; [reflexivity|]. split; [discriminate|].
    intros H. apply Hiff in H. discriminate H.
Qed.

End WithBrowser.

End SkillMore.

(** ** More on the telemetry collector *)

Module TelemetryMore.

Import Telemetry Sentry.

Lemma add_events_disabled (calls : list (string * EventType * EventData))
  (c : Collector) :
  add_events false calls c = c.
Proof.
  unfold add_events. induction calls as [|[[now t] d] calls IH];
    cbn [fold_left]; [reflexivity | exact IH].
Qed.

Lemma add_events_keep_identity (enabled : bool)
  (calls : list (string * EventType * EventData)) (c : Collector) :
  installation_id (add_events enabled calls c) = installation_id c /\
  start_time (add_events enabled calls c) = start_time c.
Proof.
  unfold add_events. revert c.
  induction calls as [|[[now t] d] calls IH]; intros c; cbn [fold_left].
  - split; reflexivity.
  - destruct (IH (add_event enabled now t d c)) as [-> ->].
    destruct enabled; split; reflexivity.
Qed.

Lemma same_bucket (es es' : list Event) (n n' : Z) :
  es = es' -> n = n' -> Some (mkBucket es n) = Some (mkBucket es' n').
Proof. now intros -> ->. Qed.

Lemma add_events_bucket (calls : list (string * EventType * EventData)) :
  forall (c : Collector) (t : EventType),
    buckets (add_events true calls c) !! value t =
    extended (buckets c !! value t) (events_of t calls).
Proof.
  induction calls as [|[[now t'] d] calls IH]; intros c t.
  - reflexivity.
  - change (add_events true ((now, t', d) :: calls) c)
      with (add_events true calls (add_event true now t' d c)).
    rewrite IH. cbn [events_of flat_map].
    fold (events_of t calls).
    destruct (String.eqb (value t') (value t)) eqn:E.
    + apply String.eqb_eq in E. rewrite <- E.
      rewrite TelemetryFacts.add_event_bucket.
      cbn [app]. rewrite E.
      destruct (buckets c !! value t) as [old|];
        destruct (events_of t calls) as [|ev evs];
        cbn [extended fmap option_fmap option_map default events event_count
             length app]; unfold id;
        (apply same_bucket;
         [ rewrite <- ?app_assoc; reflexivity
         | rewrite ?Nat2Z.inj_succ; cbn [Z.of_nat]; lia ]).
    + apply String.eqb_neq in E.
      rewrite TelemetryFacts.add_event_other by congruence.
      reflexivity.
Qed.


Lemma add_events_foreign_key (enabled : bool)
  (calls : list (string * EventType * EventData)) (key : string) :
  (forall t, key <> value t) ->
  forall c, buckets (add_events enabled calls c) !! key = buckets c !! key.
Proof.
  intros Hkey. unfold add_events.
  induction calls as [|[[now t] d] calls IH]; intros c; cbn [fold_left].
  - reflexivity.
  - rewrite IH. destruct enabled; [|reflexivity].
    apply TelemetryFacts.add_event_other, Hkey.
Qed.

(** X11. The final message built after a run of [add_event] calls on the
    collector as first built carries the installation id and the start
    time unchanged and, for each event type, a bucket exactly when an
    event of that type was added while telemetry was enabled: it holds
    those events in call order, with their number as count. No bucket has
    a key that is not the value of an event type. *)
Theorem final_message_reports_events (id start : string) (enabled : bool)
  (calls : list (string * EventType * EventData)) (t : EventType) :
  let message :=
    build_final_message (add_events enabled calls (initial id start)) in
  message_installation_id message = id /\
  session_start message = start /\
  message_buckets message !! value t =
    (if enabled then
       match events_of t calls with
       | [] => None
       | recorded => Some (mkBucket recorded (Z.of_nat (length recorded)))
       end
     else None) /\
  (forall key, (forall t', key <> value t') ->
     message_buckets message !! key = None).
Proof.
  cbn zeta. unfold build_final_message.
  cbn [message_installation_id session_start message_buckets].
  destruct (add_events_keep_identity enabled calls (initial id start))
    as [-> ->].
  split; [reflexivity|]. split; [reflexivity|]. split.
  - destruct enabled.
    + rewrite add_events_bucket. cbn [initial buckets].
      rewrite lookup_empty.
      destruct (events_of t calls); reflexivity.
    + rewrite add_events_disabled. apply lookup_empty.
  - intros key Hkey. rewrite add_events_foreign_key by exact Hkey.
    apply lookup_empty.
Qed.

(** X12. For an event the hook keeps: the event returned has the final
    message under [session_summary] in [extra] and every other entry of
    [extra] as before; its [contexts], if it had any, has no [argv] entry
    and every other entry as before; its other keys are untouched. *)
Theorem hook_attaches_summary_and_drops_argv (c : Collector)
  (event : SentryEvent) (hint : Hint) (exception_class : option string)
  (fields : gmap string Value) :
  first_exc_info hint = inr exception_class ->
  is_zero_division exception_class = false ->
  extra event = Some fields ->
  exists event' fields',
    my_before_send c event hint = inr (Some event') /\
    extra event' = Some fields' /\
    fields' !! "session_summary" = Some (Summary (build_final_message c)) /\
    (forall key, key <> "session_summary" -> fields' !! key = fields !! key) /\
    match contexts event with
    | Some entries =>
        exists entries',
          contexts event' = Some entries' /\
          entries' !! "argv" = None /\
          (forall key, key <> "argv" -> entries' !! key = entries !! key)
    | None => contexts event' = None
    end /\
    other_keys event' = other_keys event.
Proof.
  intros Hfirst Hzero Hextra. unfold my_before_send.
  rewrite Hfirst, Hzero, Hextra.
  eexists _, _. split; [reflexivity|].
  cbn [extra contexts other_keys].
  split; [reflexivity|]. split; [apply lookup_insert_eq|].
  split; [intros key Hkey; now apply lookup_insert_ne|].
  split; [|reflexivity].
  destruct (contexts event) as [entries|]; [|reflexivity].
  destruct (entries !! "argv") eqn:E.
  - eexists. split; [reflexivity|]. split; [apply lookup_delete_eq|].
    intros key Hkey. now apply lookup_delete_ne.
  - eexists. split; [reflexivity|]. split; [exact E | reflexivity].
Qed.

(** X13. The hook drops an event exactly when the first item of the
    hint's [exc_info] is the class ZeroDivisionError, whatever the event
    holds. Otherwise an empty [exc_info] raises [IndexError], and an event
    without [extra] raises [KeyError]. *)
Theorem hook_drops_zero_division_only (c : Collector) (event : SentryEvent)
  (hint : Hint) :
  (my_before_send c event hint = inr None <->
   first_exc_info hint = inr (Some "ZeroDivisionError")) /\
  (exc_info hint = Some [] -> my_before_send c event hint = inl IndexError) /\
  (forall exception_class,
      first_exc_info hint = inr exception_class ->
      exception_class <> Some "ZeroDivisionError" ->
      extra event = None ->
      my_before_send c event hint = inl (KeyError "extra")).
Proof.
  assert (Hz : forall cls, is_zero_division cls = true <->
                           cls = Some "ZeroDivisionError").
  { intros [name|]; cbn [is_zero_division].
    - rewrite String.eqb_eq. split; [now intros -> | now intros [= ->]].
    - split; discriminate. }
  unfold my_before_send. split; [|split].
  - destruct (first_exc_info hint) as [e|cls]; [split; discriminate|].
    destruct (is_zero_division cls) eqn:E.
    + apply Hz in E. subst cls. split; reflexivity.
    + split.
      * destruct (extra event); discriminate.
      * intros [= ->]. discriminate E.
  - intros H. unfold first_exc_info. now rewrite H.
  - intros cls Hfirst Hne Hextra. rewrite Hfirst.
    destruct (is_zero_division cls) eqn:E.
    + apply Hz in E. contradiction.
    + now rewrite Hextra.
Qed.

(** X14. Running the hook again on an event it returned changes nothing:
    the summary is overwritten by itself and there is no [argv] left to
    remove. *)
Theorem hook_is_idempotent (c : Collector) (event event' : SentryEvent)
  (hint : Hint) :
  my_before_send c event hint = inr (Some event') ->
  my_before_send c event' hint = inr (Some event').
Proof.
  unfold my_before_send.
  destruct (first_exc_info hint) as [e|cls]; [discriminate|].
  destruct (is_zero_division cls); [discriminate|].
  destruct (extra event) as [fields|]; [|discriminate].
  intros [= <-]. cbn [extra contexts other_keys].
  rewrite insert_insert_eq.
  f_equal. f_equal. f_equal.
  destruct (contexts event) as [entries|]; [|reflexivity].
  destruct (entries !! "argv") eqn:E.
  - now rewrite lookup_delete_eq.
  - now rewrite E.
Qed.

End TelemetryMore.

(** ** The installation id *)

Module InstallationFacts.

Import Installation.

(** X15. The installation id is stable. Whether the first call reads the
    file or creates it, a second call on the files it leaves returns the
    same id and writes nothing, and no other file is ever touched --
    provided the generated id has no white space at its ends, as a UUID
    string has none. *)
Theorem installation_id_is_stable (fresh1 fresh2 file_path : string)
  (files : gmap string string) :
  strip fresh1 = fresh1 ->
  let first := get_installation_id fresh1 file_path files in
  let second := get_installation_id fresh2 file_path (snd first) in
  fst second = fst first /\
  snd second = snd first /\
  is_Some (snd first !! file_path) /\
  (forall other, other <> file_path -> snd first !! other = files !! other).
Proof.
  intros Hfresh. cbn zeta. unfold get_installation_id.
  destruct (files !! file_path) as [content|] eqn:E; cbn [fst snd].
  - rewrite E. cbn [fst snd]. repeat split; eauto.
  - rewrite lookup_insert_eq. cbn [fst snd].
    repeat split; eauto.
    intros other Hne. now apply lookup_insert_ne.
Qed.

End InstallationFacts.

(** ** More on the click script *)

Module ScriptMore.

Import Skill Script Protocol.

Section WithBrowser.

Variable b : Browser.

(** X17. For a selector that is CSS the click script never throws away a
    reachable match: it answers with its not-found string exactly when no
    element matching the selector can be reached from the document, and in
    that case it leaves the page as it is. *)
Theorem script_not_found_iff_unreachable (selector : string) (p : Page b)
  (m : Node -> bool) :
  css b selector = Some m ->
  (fst (click_script b selector p) = Val (not_found_message selector) <->
   ~ exists n, Reaches (document b p) n /\ m n = true) /\
  (fst (click_script b selector p) = Val (not_found_message selector) ->
   snd (click_script b selector p) = p).
Proof.
  intros Hcss. unfold click_script, find_by_selector. rewrite Hcss.
  destruct (findElementInShadowDOMAndIframes m (document b p))
    as [[found|]|e] eqn:E.
  - assert (Hreach : exists n, Reaches (document b p) n /\ m n = true).
    { exists found. apply DomFacts.find_sound in E. tauto. }
    assert (Hno : fst (if String.eqb (Text.toLowerCase (tagName found)) "option"
                       then
                         match parentElement b p found with
                         | Some parent =>
                             (Val ("Select menu option: " ++ text found ++
                                   " selected"),
                              change_value b p parent (option_value found))
                         | None => (Throw TypeError, p)
                         end
                       else
                         let element := open_in_same_tab found in
                         let '(p', element') := dispatch_click b p element in
                         if is_false_then_true
                              (getAttribute element "aria-expanded")
                              (getAttribute element' "aria-expanded")
                         then (Val (executed_message selector ++ menu_notice), p')
                         else (Val (executed_message selector), p'))
                  <> Val (not_found_message selector)).
    { destruct (String.eqb _ "option").
      - destruct (parentElement b p found); cbn [fst]; intros [= H].
      - cbn zeta.
        destruct (dispatch_click b p (open_in_same_tab found)) as [p' el'].
        destruct (is_false_then_true _ _); cbn [fst]; intros [= H]. }
    split; [split|]; intros H; contradiction.
  - split; [split|]; try reflexivity.
    intros _ (n & Hr & Hm).
    destruct (DomFacts.find_complete m _ n Hr Hm) as [found Hfound].
    congruence.
  - destruct (DomFacts.find_returns m (document b p)) as [r Hr]. congruence.
Qed.

End WithBrowser.

End ScriptMore.

(** ** Order of events *)

Module TelemetryOrder.

Import Telemetry.

Lemma value_injective (t t' : EventType) : value t = value t' -> t = t'.
Proof. destruct t, t'; cbn [value]; intros H; try reflexivity; discriminate H. Qed.

Lemma collector_eq (c c' : Collector) :
  installation_id c = installation_id c' ->
  buckets c = buckets c' ->
  start_time c = start_time c' ->
  c = c'.
Proof. destruct c, c'; cbn. now intros -> -> ->. Qed.

(** X19. Distinct event types never share a bucket, so recording two
    events of different types gives the same collector in either order. *)
Theorem events_of_different_types_commute (now1 now2 : string)
  (t1 t2 : EventType) (d1 d2 : EventData) (c : Collector) :
  t1 <> t2 ->
  value t1 <> value t2 /\
  add_event true now2 t2 d2 (add_event true now1 t1 d1 c) =
  add_event true now1 t1 d1 (add_event true now2 t2 d2 c).
Proof.
  intros Hne.
  assert (Hv : value t1 <> value t2).
  { intros H. apply Hne. now apply value_injective. }
  split; [exact Hv|].
  apply collector_eq; try reflexivity.
  apply map_eq. intros key.
  destruct (decide (key = value t1)) as [->|H1].
  - rewrite (TelemetryFacts.add_event_other now2 t2 d2 _ (value t1) Hv).
    rewrite (TelemetryFacts.add_event_bucket now1 t1 d1 c).
    rewrite (TelemetryFacts.add_event_bucket now1 t1 d1
               (add_event true now2 t2 d2 c)).
    now rewrite (TelemetryFacts.add_event_other now2 t2 d2 c (value t1) Hv).
  - destruct (decide (key = value t2)) as [->|H2].
    + assert (Hv' : value t2 <> value t1) by congruence.
      rewrite (TelemetryFacts.add_event_other now1 t1 d1 _ (value t2) Hv').
      rewrite (TelemetryFacts.add_event_bucket now2 t2 d2 c).
      rewrite (TelemetryFacts.add_event_bucket now2 t2 d2
                 (add_event true now1 t1 d1 c)).
      now rewrite (TelemetryFacts.add_event_other now1 t1 d1 c (value t2) Hv').
    + now rewrite !TelemetryFacts.add_event_other by assumption.
Qed.

End TelemetryOrder.

(** ** The further statements on sample pages *)

Module MoreSamples.

Import Skill Script Protocol Fake Cases.

(** X4, on the button that only the cross-origin frame holds: the frame
    query resolves it, the script cannot see it. *)
Lemma script_miss_is_reported_witness :
  resolution plain "#buy" framed_page = Ok (Some blocked_button) /\
  evaluate_tagName plain framed_page blocked_button = Ok "button" /\
  "button" <> "option" /\
  get_element_outer_html plain framed_page blocked_button "button"
    = Ok "<button>" /\
  find_by_selector plain "#buy" framed_page = Val None /\
  fst (do_click plain "#buy" 0 (start framed_page)) =
    Ok (mkOutcome
          (Some (not_found_message "#buy"))
          (not_found_message "#buy" ++
           " The clicked element's outer HTML is: " ++ "<button>" ++ ".")).
Proof.
  assert (Hr : resolution plain "#buy" (page (start framed_page)) =
               Ok (Some blocked_button)) by reflexivity.
  assert (Ht : evaluate_tagName plain (page (start framed_page))
                 blocked_button = Ok "button") by reflexivity.
  assert (Hn : "button" <> "option") by discriminate.
  assert (Hm : get_element_outer_html plain (page (start framed_page))
                 blocked_button "button" = Ok "<button>") by reflexivity.
  assert (Hf : find_by_selector plain "#buy"
                 (document plain (page (start framed_page))) = Val None)
    by reflexivity.
  split; [exact Hr|]. split; [exact Ht|]. split; [exact Hn|].
  split; [exact Hm|]. split; [exact Hf|].
  exact (proj1 (SkillMore.script_miss_is_reported
                  plain "#buy" 0 (start framed_page) blocked_button
                  "button" "<button>" Hr Ht Hn Hm Hf)).
Defined.

(** X5, with a Playwright text selector, which the script cannot parse. *)
Lemma script_error_gives_none_witness :
  fst (click_script text_browser "text=Save" text_page) = Throw SyntaxError /\
  perform_javascript_click text_browser "text=Save" (start text_page) =
    (Ok None, mkWorld text_page [EvaluateClickScript]) /\
  fst (do_click text_browser "text=Save" 0 (start text_page)) =
    Ok (mkOutcome None
          ("None The clicked element's outer HTML is: " ++ "<button>" ++ ".")).
Proof.
  assert (H : fst (click_script text_browser "text=Save"
                     (page (start text_page))) = Throw SyntaxError)
    by reflexivity.
  split; [exact H|].
  destruct (SkillMore.script_error_gives_none
              text_browser "text=Save" 0 (start text_page) SyntaxError H)
    as [Hp Hd].
  split; [exact Hp|].
  refine (proj1 (Hd save_button "button" "<button>" _ _ _ _));
    [reflexivity | reflexivity | discriminate | reflexivity].
Defined.

(** X6, with a selector that matches nothing on the page. *)
Lemma failed_click_with_changes_reads_success_witness :
  NoHandle plain "#missing" menu_page /\
  "New elements detected" <> EmptyString /\
  fst (fst (click plain "#missing" 0 [] ["New elements detected"]
              (Some menu_page))) =
    Ok (changes_message "#missing" (Some (unable_message "#missing"))
          "New elements detected").
Proof.
  assert (Hn : NoHandle plain "#missing" menu_page).
  { split; [reflexivity | vm_compute; repeat constructor]. }
  assert (Hl : "New elements detected" <> EmptyString) by discriminate.
  split; [exact Hn|]. split; [exact Hl|].
  exact (proj1 (SkillMore.failed_click_with_changes_reads_success
                  plain "#missing" 0 menu_page [] [] "New elements detected"
                  Hn Hl)).
Defined.

(** X7, on the button inside the same-origin frame, which the query on the
    main frame does not see. *)
Lemma is_element_present_answer_witness :
  css plain "#ok" = Some (has_id "ok") /\
  query_selector plain framed_page framed_page "#ok" = Ok None /\
  exists answer,
    is_element_present plain "#ok" (start framed_page) =
      (Ok answer,
       mkWorld framed_page [QuerySelector; EvaluatePresenceScript]).
Proof.
  assert (Hc : css plain "#ok" = Some (has_id "ok")) by reflexivity.
  assert (Hq : query_selector plain (page (start framed_page))
                 (document plain (page (start framed_page))) "#ok" = Ok None)
    by reflexivity.
  split; [exact Hc|]. split; [exact Hq|].
  destruct (SkillMore.is_element_present_answer
              plain "#ok" (start framed_page) (has_id "ok") Hc Hq)
    as (answer & E & _).
  exists answer. exact E.
Defined.

(** X12, on an event that carries the command line in its contexts. *)
Lemma hook_attaches_summary_and_drops_argv_witness :
  Sentry.first_exc_info value_error_hint = inr (Some "ValueError") /\
  Sentry.is_zero_division (Some "ValueError") = false /\
  Sentry.extra sample_event =
    Some {[ "sys.argv" := Sentry.Opaque "None" ]} /\
  exists event' entries',
    Sentry.my_before_send sample_collector sample_event value_error_hint =
      inr (Some event') /\
    Sentry.contexts event' = Some entries' /\
    entries' !! "argv" = None.
Proof.
  assert (H1 : Sentry.first_exc_info value_error_hint =
               inr (Some "ValueError")) by reflexivity.
  assert (H2 : Sentry.is_zero_division (Some "ValueError") = false)
    by reflexivity.
  assert (H3 : Sentry.extra sample_event =
               Some {[ "sys.argv" := Sentry.Opaque "None" ]}) by reflexivity.
  split; [exact H1|]. split; [exact H2|]. split; [exact H3|].
  destruct (TelemetryMore.hook_attaches_summary_and_drops_argv
              sample_collector sample_event value_error_hint
              (Some "ValueError") _ H1 H2 H3)
    as (event' & fields' & E & _ & _ & _ & Hctx & _).
  unfold sample_event in Hctx. cbn [Sentry.contexts] in Hctx.
  destruct Hctx as (entries' & Hc & Hargv & _).
  now exists event', entries'.
Defined.

(** X14, on the event the hook returned. *)
Lemma hook_is_idempotent_witness :
  Sentry.my_before_send sample_collector sample_event value_error_hint =
    inr (Some sent_event) /\
  Sentry.my_before_send sample_collector sent_event value_error_hint =
    inr (Some sent_event).
Proof.
  assert (H : Sentry.my_before_send sample_collector sample_event
                value_error_hint = inr (Some sent_event))
    by (vm_compute; reflexivity).
  split; [exact H|].
  exact (TelemetryMore.hook_is_idempotent
           sample_collector sample_event sent_event value_error_hint H).
Defined.

(** X15, on a first run with no file. *)
Lemma installation_id_is_stable_witness :
  Installation.strip sample_uuid = sample_uuid /\
  fst (Installation.get_installation_id "another-uuid"
         Installation.default_path
         (snd (Installation.get_installation_id sample_uuid
                 Installation.default_path ∅))) = sample_uuid.
Proof.
  assert (H : Installation.strip sample_uuid = sample_uuid) by reflexivity.
  split; [exact H|].
  exact (proj1 (InstallationFacts.installation_id_is_stable
                  sample_uuid "another-uuid" Installation.default_path ∅ H)).
Defined.

(** X17, on the button inside the cross-origin frame. *)
Lemma script_not_found_iff_unreachable_witness :
  css plain "#buy" = Some (has_id "buy") /\
  (fst (click_script plain "#buy" framed_page) = Val (not_found_message "#buy")
   <-> ~ exists n, Reaches framed_page n /\ has_id "buy" n = true).
Proof.
  assert (Hc : css plain "#buy" = Some (has_id "buy")) by reflexivity.
  split; [exact Hc|].
  exact (proj1 (ScriptMore.script_not_found_iff_unreachable
                  plain "#buy" framed_page (has_id "buy") Hc)).
Defined.

(** X19, with an interaction and a step. *)
Lemma events_of_different_types_commute_witness :
  Telemetry.INTERACTION <> Telemetry.STEP /\
  Telemetry.value Telemetry.INTERACTION <> Telemetry.value Telemetry.STEP.
Proof.
  assert (H : Telemetry.INTERACTION <> Telemetry.STEP) by discriminate.
  split; [exact H|].
  exact (proj1 (TelemetryOrder.events_of_different_types_commute
                  "10:00" "10:01" Telemetry.INTERACTION Telemetry.STEP
                  (Telemetry.mkEventData (Some "click") None)
                  (Telemetry.mkEventData None None)
                  sample_collector H)).
Defined.


End MoreSamples.
